(** * Dyslexia screening server: scorer, aggregator and routes

    A shallow embedding of [server.py].  Python [str] values are modelled
    as [string] (texts over ASCII: a character above 127 is kept as an
    opaque symbol that is neither a letter, a digit nor white space);
    Python numbers are modelled as exact rationals [Q], compared with
    [Qeq]: every penalty is a small integer, so the sums of the scorer are
    exact in binary64 as well and only the final quotient is rounded
    there; the sums of the aggregator, over scores sent by the client,
    are rounded in the code and exact here.  Console logging ([print]) is
    not modelled. *)

From Stdlib Require Import String Ascii List ZArith QArith Lia Lqa.
From stdpp Require Import gmap strings.
Import ListNotations.

Local Open Scope string_scope.

(** ** Python built-ins used by the server *)

Module Py.

Definition in_range (lo hi : N) (c : ascii) : bool :=
  let n := N_of_ascii c in (lo <=? n)%N && (n <=? hi)%N.

Definition char_isupper (c : ascii) : bool := in_range 65 90 c.

Definition char_isalnum (c : ascii) : bool :=
  in_range 48 57 c || in_range 65 90 c || in_range 97 122 c.

(** [str.isspace] on one ASCII character: TAB, LF, VT, FF, CR, the four
    separators FS, GS, RS, US and the space. *)
Definition char_isspace (c : ascii) : bool :=
  in_range 9 13 c || in_range 28 32 c.

Definition char_lower (c : ascii) : ascii :=
  if char_isupper c then ascii_of_N (N_of_ascii c + 32) else c.

(** [s.lower()] *)
Fixpoint lower (s : string) : string :=
  match s with
  | EmptyString => EmptyString
  | String c s' => String (char_lower c) (lower s')
  end.

(** [s.isalnum()]: false on the empty string. *)
Definition isalnum (s : string) : bool :=
  match s with
  | EmptyString => false
  | _ => forallb char_isalnum (list_ascii_of_string s)
  end.

(** [s[::-1]] *)
Definition reversed (s : string) : string :=
  string_of_list_ascii (rev (list_ascii_of_string s)).

(** [sub in s] on two strings: [sub] occurs as a substring of [s]. *)
Fixpoint str_contains (sub s : string) : bool :=
  String.prefix sub s ||
  match s with
  | EmptyString => false
  | String _ s' => str_contains sub s'
  end.

(** [x in t] on a tuple of strings. *)
Definition tuple_contains (x : string) (t : list string) : bool :=
  existsb (String.eqb x) t.

(** [s.split()]: the maximal runs of characters that are not white
    space, in order. [acc] is the current run, last character first. *)
Definition flush (acc : list ascii) : list string :=
  match acc with
  | [] => []
  | _ => [string_of_list_ascii (rev acc)]
  end.

Fixpoint split_go (acc : list ascii) (cs : list ascii) : list string :=
  match cs with
  | [] => flush acc
  | c :: cs' =>
      if char_isspace c then flush acc ++ split_go [] cs'
      else split_go (c :: acc) cs'
  end.

Definition split (s : string) : list string :=
  split_go [] (list_ascii_of_string s).

(** [s.strip()] *)
Fixpoint lstrip_chars (cs : list ascii) : list ascii :=
  match cs with
  | c :: cs' => if char_isspace c then lstrip_chars cs' else cs
  | [] => []
  end.

Definition strip (s : string) : string :=
  string_of_list_ascii
    (rev (lstrip_chars (rev (lstrip_chars (list_ascii_of_string s))))).

(** [not l] on a list, [not s] on a string. *)
Definition list_falsy {A : Type} (l : list A) : bool :=
  match l with [] => true | _ => false end.

Definition str_falsy (s : string) : bool :=
  match s with EmptyString => true | _ => false end.

(** [sum(xs)] *)
Definition sum (xs : list Q) : Q := fold_left Qplus xs 0%Q.

(** Exceptions that the modelled code can raise, and computations that
    may raise them. *)
Inductive exn : Set := IndexError | ZeroDivisionError | AttributeError.

Definition result (A : Type) : Type := (exn + A)%type.

Definition ret {A : Type} (a : A) : result A := inr a.
Definition raise {A : Type} (e : exn) : result A := inl e.
Definition bind {A B : Type} (c : result A) (k : A -> result B) : result B :=
  match c with
  | inl e => inl e
  | inr a => k a
  end.

(** [l[0]] *)
Definition item0 {A : Type} (l : list A) : result A :=
  match l with
  | [] => raise IndexError
  | x :: _ => ret x
  end.

(** [a / n] where [n] is a [len(...)]: the exact quotient, which Python
    rounds to the nearest binary64 number. *)
Definition truediv (a : Q) (n : nat) : result Q :=
  match n with
  | O => raise ZeroDivisionError
  | S _ => ret (a / inject_Z (Z.of_nat n))%Q
  end.

End Py.

Notation "'try!' x ':=' c 'in' k" := (Py.bind c (fun x => k))
  (at level 10, x name, c at level 100, k at level 200).

(** ** Module-level constants *)

Definition SIMILARITY_THRESHOLD : Q := 50.
Definition DYSLEXIA_SCORE_THRESHOLD : Q := 3.5.
Definition MAX_ATTEMPTS : nat := 3.

Definition DYSLEXIC_LETTER_CONFUSIONS : list (string * string) :=
  [ ("b", "d"); ("p", "q"); ("m", "w"); ("n", "u"); ("n", "r");
    ("i", "j"); ("a", "e"); ("s", "z"); ("f", "t"); ("c", "k");
    ("g", "q"); ("h", "n"); ("v", "w"); ("b", "p"); ("c", "s");
    ("d", "t"); ("o", "e"); ("a", "o"); ("u", "v"); ("m", "n") ].

Definition DYSLEXIC_WORD_CONFUSIONS : list (list string) :=
  [ ["was"; "saw"]; ["there"; "their"]; ["here"; "hear"];
    ["you"; "your"]; ["where"; "wear"]; ["to"; "too"; "two"];
    ["here"; "here"]; ["their"; "there"]; ["its"; "it's"];
    ["where"; "were"]; ["new"; "knew"]; ["your"; "you're"];
    ["break"; "brake"]; ["bare"; "bear"]; ["peace"; "piece"];
    ["right"; "write"]; ["flower"; "flour"]; ["buy"; "by"; "bye"];
    ["no"; "know"]; ["for"; "four"]; ["sun"; "son"];
    ["allowed"; "aloud"]; ["hour"; "our"]; ["blew"; "blue"] ].

(** The module globals that the request handlers read.  [english_vocab]
    is filled when the process starts: the lower-cased NLTK word list, or
    the empty set when loading it fails. *)
Record globals : Type := Globals {
  english_vocab : gset string;
  letter_confusions : list (string * string);
  word_confusions : list (list string)
}.

Definition boot (vocab : gset string) : globals :=
  {| english_vocab := vocab;
     letter_confusions := DYSLEXIC_LETTER_CONFUSIONS;
     word_confusions := DYSLEXIC_WORD_CONFUSIONS |}.

(** ** Tokenizer and scorer *)

Section Scorer.

(** NLTK's [word_tokenize]; [None] stands for a raised exception (for
    instance a missing [punkt] resource). *)
Variable word_tokenize : string -> option (list string).

Variable G : globals.

Definition tokenize_and_clean_text (text : string) : list string :=
  match word_tokenize (Py.lower text) with
  | Some words => List.filter Py.isalnum words
  | None => Py.split (Py.lower text)
  end.

(** The body of the [for word_token in word_tokens] loop, check by
    check; [token_score] is the running value of the local variable. *)
Definition check_vocabulary (word_token : string) (token_score : Q) : Q :=
  if bool_decide (word_token ∉ english_vocab G)
  then (token_score + 3.0)%Q else token_score.

Definition letter_step (word_token : string) (token_score : Q)
    (conf_pair : string * string) : Q :=
  if Py.str_contains (fst conf_pair) word_token
     && Py.str_contains (snd conf_pair) word_token
  then (token_score + 3.0)%Q else token_score.

Definition check_letters (word_token : string) (token_score : Q) : Q :=
  fold_left (letter_step word_token) (letter_confusions G) token_score.

Definition word_step (word_token : string) (token_score : Q)
    (conf_group : list string) : Q :=
  if Py.tuple_contains word_token conf_group
  then (token_score + 4.0)%Q else token_score.

Definition check_words (word_token : string) (token_score : Q) : Q :=
  fold_left (word_step word_token) (word_confusions G) token_score.

(** The value of [token_score] when the reversal check is reached. *)
Definition score_before_reversal (word_token : string) : Q :=
  check_words word_token
    (check_letters word_token (check_vocabulary word_token 0%Q)).

Definition check_reversal (word_token first : string) (token_score : Q) : Q :=
  if String.eqb (Py.reversed word_token) first
  then (token_score + 3.0)%Q else token_score.

Definition token_score (word_token : string) (sentence_tokens : list string)
    : Py.result Q :=
  let before := score_before_reversal word_token in
  try! first := Py.item0 sentence_tokens in
  Py.ret (check_reversal word_token first before).

(** The value of [token_score] once [sentence_tokens[0]] is [first]. *)
Definition token_penalty (first word_token : string) : Q :=
  check_reversal word_token first (score_before_reversal word_token).

Fixpoint score_loop (word_tokens sentence_tokens : list string)
    (dyslexia_score : Q) : Py.result Q :=
  match word_tokens with
  | [] => Py.ret dyslexia_score
  | word_token :: rest =>
      try! ts := token_score word_token sentence_tokens in
      score_loop rest sentence_tokens (dyslexia_score + ts)%Q
  end.

(** The [try] block of [calculate_word_dyslexia_score]. *)
Definition score_tokens (word_tokens sentence_tokens : list string)
    : Py.result Q :=
  if Py.list_falsy word_tokens || Py.list_falsy sentence_tokens
  then Py.ret 0%Q
  else
    try! dyslexia_score := score_loop word_tokens sentence_tokens 0%Q in
    Py.truediv dyslexia_score (length word_tokens).

Definition calculate_word_dyslexia_score_try (word reference_sentence : string)
    : Py.result Q :=
  let word_tokens := tokenize_and_clean_text word in
  let sentence_tokens := tokenize_and_clean_text reference_sentence in
  score_tokens word_tokens sentence_tokens.

(** The whole function: [except Exception] turns any failure into 0. *)
Definition calculate_word_dyslexia_score (word reference_sentence : string) : Q :=
  match calculate_word_dyslexia_score_try word reference_sentence with
  | inr score => score
  | inl _ => 0%Q
  end.

End Scorer.

(** ** Session aggregator and routes *)

Definition VERDICT_POSITIVE : string := "Likelihood of dyslexia detected.".
Definition VERDICT_NEGATIVE : string := "No significant signs of dyslexia detected.".

(** A JSON response body and the HTTP response that carries it. *)
Inductive json_body : Type :=
| ErrorBody (error : string)
| ScoreBody (score : Q) (isValid : bool)
| ReportBody (avgScore : Q) (verdict : string) (pdfPath : string).

Record response : Type := Response { status : nat; body : json_body }.

(** [jsonify(b)] alone is a response with status 200; [jsonify(b), 500]
    sets the status. *)
Definition jsonify (b : json_body) : response := {| status := 200; body := b |}.
Definition jsonify_status (b : json_body) (code : nat) : response :=
  {| status := code; body := b |}.

(** A value of a JSON object: a string, or anything else (a number, a
    boolean, null, an array, an object), which has no [strip] method. *)
Inductive json_value : Type :=
| JString (s : string)
| JOther.

(** [v.strip()] *)
Definition strip_value (v : json_value) : Py.result string :=
  match v with
  | JString s => Py.ret (Py.strip s)
  | JOther => Py.raise Py.AttributeError
  end.

(** Request bodies; a field is [None] when the key is absent.  The lists
    of a report request are typed as the interface declares them. *)
Record analyze_request : Type := AnalyzeRequest {
  userText : option json_value;
  sentence : option json_value
}.

Record report_request : Type := ReportRequest {
  userName : option string;
  userId : option string;
  responses : option (list string);
  scores : option (list Q)
}.

Record user_data : Type := UserData { name : string; id : string }.

(** [d.get(key, default)] *)
Definition get {A : Type} (field : option A) (default : A) : A :=
  match field with
  | Some v => v
  | None => default
  end.

(** The outcome of lines 259-263 of [generate_final_report]. *)
Inductive aggregation : Type :=
| InsufficientData
| Aggregated (avg_score : Q) (verdict : string).

Definition verdict_of (avg_score : Q) : string :=
  if Qle_bool DYSLEXIA_SCORE_THRESHOLD avg_score
  then VERDICT_POSITIVE else VERDICT_NEGATIVE.

Definition aggregate (responses : list string) (scores : list Q)
    : Py.result aggregation :=
  if Py.list_falsy responses || Py.list_falsy scores
  then Py.ret InsufficientData
  else
    try! avg_score := Py.truediv (Py.sum scores) (length scores) in
    Py.ret (Aggregated avg_score (verdict_of avg_score)).

Section Routes.

Variable word_tokenize : string -> option (list string).

(** [generate_pdf_report]: the renderer (reportlab, the clock and the
    file system); [Some path] on success, [None] when anything in it
    fails. *)
Variable generate_pdf_report : user_data -> list string -> list Q -> option string.

(** The [try] block of [analyze_response]. *)
Definition analyze_response_try (G : globals) (data : analyze_request)
    : Py.result response :=
  try! user_text := strip_value (get (userText data) (JString "")) in
  try! reference_sentence := strip_value (get (sentence data) (JString "")) in
  if Py.str_falsy user_text || Py.str_falsy reference_sentence
  then Py.ret (jsonify (ErrorBody "Invalid input"))
  else
    let score :=
      calculate_word_dyslexia_score word_tokenize G user_text reference_sentence in
    Py.ret (jsonify (ScoreBody score true)).

Definition analyze_response (G : globals) (data : analyze_request) : response :=
  match analyze_response_try G data with
  | inr resp => resp
  | inl _ => jsonify_status (ErrorBody "Error processing response") 500
  end.

Definition generate_final_report (data : report_request) : response :=
  let user := {| name := get (userName data) "Unknown";
                 id := get (userId data) "Unknown" |} in
  let responses := get (responses data) [] in
  let scores := get (scores data) [] in
  match aggregate responses scores with
  | inl _ => jsonify_status (ErrorBody "Error generating report") 500
  | inr InsufficientData => jsonify (ErrorBody "Insufficient data")
  | inr (Aggregated avg_score verdict) =>
      match generate_pdf_report user responses scores with
      | None => jsonify_status (ErrorBody "Error generating PDF report") 500
      | Some pdf_path => jsonify (ReportBody avg_score verdict pdf_path)
      end
  end.

End Routes.

(** ** Vocabulary of the statements *)

(** The number of elements of a list, as a rational. *)
Definition of_count (n : nat) : Q := inject_Z (Z.of_nat n).

(** [sum(scores) / len(scores)] *)
Definition mean (scores : list Q) : Q :=
  (Py.sum scores / of_count (length scores))%Q.

(** [occurs sub s]: [sub] is a contiguous part of [s]. *)
Definition occurs (sub s : string) : Prop :=
  exists pre post : string, s = pre +:+ sub +:+ post.

(** What the specification counts for a token [t]: the letter pairs both
    of whose members occur in [t], and the word groups [t] belongs to. *)
Definition pair_hit (t : string) (p : string * string) : Prop :=
  occurs (fst p) t /\ occurs (snd p) t.

(** The penalty for a token outside the vocabulary and the penalty for a
    token whose reverse is [first]. *)
Definition unknown_penalty (vocab : gset string) (t : string) : Q :=
  if decide (t ∈ vocab) then 0%Q else 3%Q.

Definition reversal_penalty (t first : string) : Q :=
  if decide (Py.reversed t = first) then 3%Q else 0%Q.

(** The tokenizer when the NLTK resources are missing: every call to
    [word_tokenize] raises and the white-space split takes over. *)
Definition word_tokenize_unavailable : string -> option (list string) :=
  fun _ => None.

(** A renderer that always succeeds, and a session with four attempts. *)
Definition renderer_ok (user : user_data) (responses : list string)
    (scores : list Q) : option string :=
  Some ("static/reports/dyslexia_report_" +:+ name user +:+ ".pdf").

Definition four_attempts : report_request :=
  {| userName := Some "Ann";
     userId := Some "7";
     responses := Some ["teh cat"; "the cat"; "the cta"; "the cat"];
     scores := Some [3.0; 0; 3.0; 0]%Q |}.

(** The bound as the specification words it: a report is produced only
    for sessions of at most [MAX_ATTEMPTS] attempts. *)
Definition report_only_within_bound : Prop :=
  forall (generate_pdf_report : user_data -> list string -> list Q -> option string)
    (data : report_request) (avg_score : Q) (verdict pdf_path : string),
    generate_final_report generate_pdf_report data
    = jsonify (ReportBody avg_score verdict pdf_path) ->
    (length (get (responses data) []) <= MAX_ATTEMPTS)%nat
    /\ (length (get (scores data) []) <= MAX_ATTEMPTS)%nat.

(** ** Sentence provider and report renderer *)

From stdpp Require Import pretty.

Definition TEST_SENTENCES : list string :=
  [ "The quick brown fox jumps over the lazy dog.";
    "She sells seashells by the seashore.";
    "How vexingly quick daft zebras jump.";
    "Pack my box with five dozen liquor jugs.";
    "The five boxing wizards jump quickly.";
    "Two driven jocks help fax my big quiz.";
    "The job requires extra pluck and zeal.";
    "Two golden apples lay upon the table.";
    "A blue butterfly rested on the flower.";
    "The sunset created beautiful colors." ].

(** [random.choice(seq)]: [seq[k]] where [k] is the number that the
    generator draws below [len(seq)]; an empty sequence raises
    [IndexError]. *)
Definition random_choice {A : Type} (draw : nat) (seq : list A) : Py.result A :=
  match seq with
  | [] => Py.raise Py.IndexError
  | _ =>
      match seq !! draw with
      | Some x => Py.ret x
      | None => Py.raise Py.IndexError
      end
  end.

(** The answer of [get_sentence]: a JSON body of its own and a status. *)
Inductive sentence_body : Type :=
| SentenceBody (sentence : string)
| SentenceError (error : string).

Record sentence_response : Type := SentenceResponse {
  sentence_status : nat;
  sentence_json : sentence_body
}.

Definition get_sentence (draw : nat) : sentence_response :=
  match random_choice draw TEST_SENTENCES with
  | inr sentence => {| sentence_status := 200; sentence_json := SentenceBody sentence |}
  | inl _ =>
      {| sentence_status := 500;
         sentence_json := SentenceError "Error generating sentence" |}
  end.

(** What [generate_pdf_report] takes from its environment: the two
    readings of the clock, already formatted, the rendering of a number
    with [:.3f], the height of the [letter] page and whether [c.save()]
    manages to write the file. *)
Record pdf_env : Type := PdfEnv {
  now_stamp : string;
  now_minute : string;
  format_3f : Q -> string;
  page_height : Q;
  save_ok : string -> bool
}.

(** The calls made on the canvas, oldest first. *)
Inductive canvas_op : Type :=
| SetFont (font : string) (size : nat)
| DrawString (x y : Q) (text : string).

Definition setFont (c : list canvas_op) (font : string) (size : nat)
    : list canvas_op :=
  c ++ [SetFont font size].

Definition drawString (c : list canvas_op) (x y : Q) (text : string)
    : list canvas_op :=
  c ++ [DrawString x y text].

Inductive pdf_exn : Type :=
| PdfRaised (e : Py.exn)
| OSError.

Section Renderer.

Variable env : pdf_env.

(** The loop over [enumerate(zip(responses, scores), 1)]; [i] is the
    number of the next attempt. *)
Fixpoint draw_attempts (c : list canvas_op) (y_position : Q) (i : nat)
    (attempts : list (string * Q)) : list canvas_op * Q :=
  match attempts with
  | [] => (c, y_position)
  | (response, score) :: rest =>
      let c := setFont c "Helvetica" 12 in
      let c := drawString c 50 y_position ("Attempt " +:+ pretty i +:+ ":") in
      let c := drawString c 70 (y_position - 20) ("Response: " +:+ response) in
      let c := drawString c 70 (y_position - 40)
                 ("Score: " +:+ format_3f env score) in
      draw_attempts c (y_position - 70) (S i) rest
  end.

(** [sum(scores) / len(scores) if scores else 0] *)
Definition pdf_avg_score (scores : list Q) : Py.result Q :=
  if Py.list_falsy scores then Py.ret 0%Q
  else Py.truediv (Py.sum scores) (length scores).

Definition pdf_filename (user : user_data) : string :=
  "static/reports/dyslexia_report_" +:+ name user +:+ "_" +:+ now_stamp env +:+ ".pdf".

(** The [try] block of [generate_pdf_report]: the file name and the
    canvas that was saved. *)
Definition generate_pdf_report_try (user : user_data) (responses : list string)
    (scores : list Q) : pdf_exn + (string * list canvas_op) :=
  let filename := pdf_filename user in
  let height := page_height env in
  let c := [] in
  let c := setFont c "Helvetica-Bold" 24 in
  let c := drawString c 50 (height - 50) "Dyslexia Assessment Report" in
  let c := setFont c "Helvetica-Bold" 14 in
  let c := drawString c 50 (height - 100) "Patient Information" in
  let c := setFont c "Helvetica" 12 in
  let c := drawString c 50 (height - 120) ("Name: " +:+ name user) in
  let c := drawString c 50 (height - 140) ("ID: " +:+ id user) in
  let c := drawString c 50 (height - 160) ("Date: " +:+ now_minute env) in
  let c := setFont c "Helvetica-Bold" 14 in
  let c := drawString c 50 (height - 200) "Assessment Results" in
  let y_position := (height - 220)%Q in
  let '(c, y_position) := draw_attempts c y_position 1 (combine responses scores) in
  match pdf_avg_score scores with
  | inl e => inl (PdfRaised e)
  | inr avg_score =>
      let verdict := verdict_of avg_score in
      let c := setFont c "Helvetica-Bold" 14 in
      let c := drawString c 50 (y_position - 20) "Final Assessment" in
      let c := setFont c "Helvetica" 12 in
      let c := drawString c 50 (y_position - 40)
                 ("Average Score: " +:+ format_3f env avg_score) in
      let c := drawString c 50 (y_position - 60) ("Verdict: " +:+ verdict) in
      if save_ok env filename then inr (filename, c) else inl OSError
  end.

Definition generate_pdf_report (user : user_data) (responses : list string)
    (scores : list Q) : option string :=
  match generate_pdf_report_try user responses scores with
  | inr (filename, _) => Some filename
  | inl _ => None
  end.

End Renderer.

(** The [y] coordinates of the strings drawn on a canvas. *)
Definition heights (c : list canvas_op) : list Q :=
  omap (fun op => match op with
                  | DrawString _ y _ => Some y
                  | SetFont _ _ => None
                  end) c.

(** The strings drawn on a canvas, in order. *)
Definition texts (c : list canvas_op) : list string :=
  omap (fun op => match op with
                  | DrawString _ _ text => Some text
                  | SetFont _ _ => None
                  end) c.

(** ** The request body of [analyze_response] *)

(** What [request.json] yields: a JSON object, or no object (the body is
    not JSON, or is a JSON array, string, number or [null]); on the latter
    [request.json] or [data.get] raises. *)
Inductive json_document : Type :=
| JObject (data : analyze_request)
| JNotObject.

(** [analyze_response] from the request body on: its [except] branch also
    answers a body that is not an object. *)
Definition analyze_response_route (word_tokenize : string -> option (list string))
    (G : globals) (document : json_document) : response :=
  match document with
  | JObject data => analyze_response word_tokenize G data
  | JNotObject => jsonify_status (ErrorBody "Error processing response") 500
  end.

(** ** Vocabulary of the further statements *)

(** White space only. *)
Definition blank (cs : list ascii) : Prop :=
  Forall (fun c => Py.char_isspace c = true) cs.

(** No white space at all. *)
Definition solid (cs : list ascii) : Prop :=
  Forall (fun c => Py.char_isspace c = false) cs.

(** The same characters occur in both tokens. *)
Definition same_letters (t t2 : string) : Prop :=
  forall c : ascii,
    In c (list_ascii_of_string t) <-> In c (list_ascii_of_string t2).

(** The largest penalty that the tables of [G] allow for one token. *)
Definition penalty_cap (G : globals) : Q :=
  (3 + 3 * of_count (length (letter_confusions G))
   + 4 * of_count (length (word_confusions G)) + 3)%Q.

(** The canvas calls before and after the list of attempts. *)
Definition header_ops (env : pdf_env) (user : user_data) : list canvas_op :=
  [ SetFont "Helvetica-Bold" 24;
    DrawString 50 (page_height env - 50) "Dyslexia Assessment Report";
    SetFont "Helvetica-Bold" 14;
    DrawString 50 (page_height env - 100) "Patient Information";
    SetFont "Helvetica" 12;
    DrawString 50 (page_height env - 120) ("Name: " +:+ name user);
    DrawString 50 (page_height env - 140) ("ID: " +:+ id user);
    DrawString 50 (page_height env - 160) ("Date: " +:+ now_minute env);
    SetFont "Helvetica-Bold" 14;
    DrawString 50 (page_height env - 200) "Assessment Results" ].

Definition footer_ops (env : pdf_env) (y_position avg_score : Q) : list canvas_op :=
  [ SetFont "Helvetica-Bold" 14;
    DrawString 50 (y_position - 20) "Final Assessment";
    SetFont "Helvetica" 12;
    DrawString 50 (y_position - 40) ("Average Score: " +:+ format_3f env avg_score);
    DrawString 50 (y_position - 60) ("Verdict: " +:+ verdict_of avg_score) ].

(** An environment for the examples: a fixed clock, a page of height
    792, numbers printed as fractions and a file system that accepts
    every write. *)
Definition sample_env : pdf_env :=
  {| now_stamp := "20260101_120000";
     now_minute := "2026-01-01 12:00";
     format_3f := fun q => pretty (Qnum q) +:+ "/" +:+ pretty (Zpos (Qden q));
     page_height := 792;
     save_ok := fun _ => true |}.

Definition ann : user_data := {| name := "Ann"; id := "7" |}.

(** ** Facts about the built-ins *)

Lemma prefix_spec (sub s : string) :
  String.prefix sub s = true <-> exists post, s = sub +:+ post.
Proof.
  revert s; induction sub as [|c sub IH]; intros s.
  - split; [intros _; exists s; reflexivity | destruct s; reflexivity].
  - destruct s as [|d s]; simpl.
    + split; [discriminate | intros [post H]; discriminate].
    + destruct (Ascii.ascii_dec c d) as [->|Hne].
      * rewrite IH. split; intros [post H]; exists post.
        -- now rewrite H.
        -- now inversion H.
      * split; [discriminate | intros [post H]; injection H as E _; congruence].
Qed.

Lemma str_contains_nil (sub : string) :
  Py.str_contains sub "" = String.prefix sub "".
Proof. apply orb_false_r. Qed.

Lemma str_contains_cons (sub : string) (c : ascii) (s : string) :
  Py.str_contains sub (String c s)
  = String.prefix sub (String c s) || Py.str_contains sub s.
Proof. reflexivity. Qed.

Lemma str_contains_spec (sub s : string) :
  Py.str_contains sub s = true <-> occurs sub s.
Proof.
  induction s as [|c s IH].
  - rewrite str_contains_nil, prefix_spec. split.
    + intros [post H]. exists "", post. exact H.
    + intros [pre [post H]]. destruct pre; [|discriminate].
      exists post. exact H.
  - rewrite str_contains_cons, orb_true_iff, prefix_spec, IH. split.
    + intros [[post H] | [pre [post H]]].
      * exists "", post. exact H.
      * exists (String c pre), post. now rewrite H.
    + intros [pre [post H]]. destruct pre as [|d pre].
      * left. exists post. exact H.
      * right. injection H as _ H. exists pre, post. exact H.
Qed.

#[export] Instance occurs_dec (sub s : string) : Decision (occurs sub s).
Proof.
  destruct (Py.str_contains sub s) eqn:E.
  - left. now apply str_contains_spec.
  - right. intros H. apply str_contains_spec in H. congruence.
Defined.

(** A one-character pattern occurs in [s] exactly when the character is
    one of the characters of [s]. *)
Lemma occurs_char (c : ascii) (s : string) :
  occurs (String c "") s <-> In c (list_ascii_of_string s).
Proof.
  split.
  - intros [pre [post ->]]. induction pre as [|d pre IH]; simpl; auto.
  - induction s as [|d s IH]; simpl; [tauto|].
    intros [->|H].
    + exists "", s. reflexivity.
    + destruct (IH H) as [pre [post ->]]. exists (String d pre), post. reflexivity.
Qed.

Lemma tuple_contains_spec (x : string) (t : list string) :
  Py.tuple_contains x t = true <-> x ∈ t.
Proof.
  unfold Py.tuple_contains. rewrite existsb_exists, list_elem_of_In. split.
  - intros [y [Hy E]]. apply String.eqb_eq in E. now subst.
  - intros H. exists x. split; [exact H | apply String.eqb_refl].
Qed.

Lemma reversed_involutive (s : string) : Py.reversed (Py.reversed s) = s.
Proof.
  unfold Py.reversed.
  now rewrite list_ascii_of_string_of_list_ascii, rev_involutive,
    string_of_list_ascii_of_string.
Qed.

(** ** The per-token penalty *)

Lemma of_count_S (n : nat) : (of_count (S n) == of_count n + 1)%Q.
Proof.
  unfold of_count. rewrite Nat2Z.inj_succ, <- Z.add_1_r, inject_Z_plus.
  reflexivity.
Qed.

Lemma of_count_nonneg (n : nat) : (0 <= of_count n)%Q.
Proof.
  unfold of_count. change 0%Q with (inject_Z 0). rewrite <- Zle_Qle. lia.
Qed.

(** The letter pairs both of whose members occur in [t], and the word
    groups [t] belongs to. *)
Definition pairs_hit (pairs : list (string * string)) (t : string)
    : list (string * string) :=
  filter (pair_hit t) pairs.

Definition groups_hit (groups : list (list string)) (t : string)
    : list (list string) :=
  filter (fun g => t ∈ g) groups.

Section TokenPenalty.

Variable G : globals.

Lemma check_vocabulary_sum (t : string) (acc : Q) :
  (check_vocabulary G t acc == acc + unknown_penalty (english_vocab G) t)%Q.
Proof.
  unfold check_vocabulary, unknown_penalty.
  destruct (decide (t ∈ english_vocab G)) as [Hin|Hout].
  - rewrite bool_decide_eq_false_2 by tauto. lra.
  - rewrite bool_decide_eq_true_2 by exact Hout. lra.
Qed.

Lemma letter_loop_sum (t : string) (pairs : list (string * string)) (acc : Q) :
  (fold_left (letter_step t) pairs acc
   == acc + 3 * of_count (length (pairs_hit pairs t)))%Q.
Proof.
  revert acc. induction pairs as [|p pairs IH]; intros acc.
  - cbn. change (of_count 0) with 0%Q. lra.
  - cbn [fold_left]. rewrite IH. unfold pairs_hit. rewrite filter_cons.
    unfold letter_step. destruct (decide (pair_hit t p)) as [[H1 H2]|Hno].
    + apply str_contains_spec in H1, H2. rewrite H1, H2.
      cbn [andb length]. rewrite of_count_S. lra.
    + destruct (Py.str_contains (fst p) t) eqn:E1;
        destruct (Py.str_contains (snd p) t) eqn:E2; cbn [andb]; try lra.
      exfalso. apply Hno. split; now apply str_contains_spec.
Qed.

Lemma word_loop_sum (t : string) (groups : list (list string)) (acc : Q) :
  (fold_left (word_step t) groups acc
   == acc + 4 * of_count (length (groups_hit groups t)))%Q.
Proof.
  revert acc. induction groups as [|g groups IH]; intros acc.
  - cbn. change (of_count 0) with 0%Q. lra.
  - cbn [fold_left]. rewrite IH. unfold groups_hit. rewrite filter_cons.
    unfold word_step. destruct (decide (t ∈ g)) as [Hin|Hout].
    + apply tuple_contains_spec in Hin. rewrite Hin.
      cbn [length]. rewrite of_count_S. lra.
    + destruct (Py.tuple_contains t g) eqn:E; [|lra].
      exfalso. apply Hout. now apply tuple_contains_spec.
Qed.

Lemma score_before_reversal_sum (t : string) :
  (score_before_reversal G t
   == unknown_penalty (english_vocab G) t
      + 3 * of_count (length (pairs_hit (letter_confusions G) t))
      + 4 * of_count (length (groups_hit (word_confusions G) t)))%Q.
Proof.
  unfold score_before_reversal, check_words, check_letters.
  rewrite word_loop_sum, letter_loop_sum, check_vocabulary_sum. lra.
Qed.

Lemma check_reversal_sum (t first : string) (acc : Q) :
  (check_reversal t first acc == acc + reversal_penalty t first)%Q.
Proof.
  unfold check_reversal, reversal_penalty.
  destruct (decide (Py.reversed t = first)) as [E|E].
  - apply String.eqb_eq in E. rewrite E. lra.
  - apply String.eqb_neq in E. rewrite E. lra.
Qed.

Lemma score_before_reversal_nonneg (t : string) :
  (0 <= score_before_reversal G t)%Q.
Proof.
  rewrite score_before_reversal_sum.
  pose proof (of_count_nonneg (length (pairs_hit (letter_confusions G) t))).
  pose proof (of_count_nonneg (length (groups_hit (word_confusions G) t))).
  unfold unknown_penalty. destruct (decide (t ∈ english_vocab G)); lra.
Qed.

End TokenPenalty.

(** C1. For every token [t], the penalty accumulated before the reversal
    check is 3.0 if [t] is not in the vocabulary, plus 3.0 for each of the
    20 letter-confusion pairs both of whose letters occur in [t], plus 4.0
    for each word-confusion group that has [t] as a member; nothing stops
    the two loops early. *)
Theorem token_penalty_before_reversal (vocab : gset string) (t : string) :
  length DYSLEXIC_LETTER_CONFUSIONS = 20
  /\ (score_before_reversal (boot vocab) t
      == (if decide (t ∉ vocab) then 3.0 else 0)
         + 3.0 * of_count (length (pairs_hit DYSLEXIC_LETTER_CONFUSIONS t))
         + 4.0 * of_count (length (groups_hit DYSLEXIC_WORD_CONFUSIONS t)))%Q.
Proof.
  split; [reflexivity|].
  rewrite score_before_reversal_sum. cbn [boot english_vocab letter_confusions word_confusions].
  unfold unknown_penalty.
  destruct (decide (t ∈ vocab)), (decide (t ∉ vocab)); try tauto; lra.
Qed.

(** ** The scoring loop and the mean *)

Lemma sum_from (xs : list Q) (acc : Q) :
  (fold_left Qplus xs acc == acc + Py.sum xs)%Q.
Proof.
  unfold Py.sum. revert acc. induction xs as [|x xs IH]; intros acc; cbn [fold_left].
  - lra.
  - rewrite (IH (acc + x)%Q), (IH (0 + x)%Q). lra.
Qed.

Lemma sum_cons (x : Q) (xs : list Q) : (Py.sum (x :: xs) == x + Py.sum xs)%Q.
Proof. unfold Py.sum at 1. cbn [fold_left]. rewrite sum_from. lra. Qed.

Lemma sum_app (xs ys : list Q) : (Py.sum (xs ++ ys) == Py.sum xs + Py.sum ys)%Q.
Proof.
  induction xs as [|x xs IH]; cbn [app].
  - change (Py.sum []) with 0%Q. lra.
  - rewrite !sum_cons, IH. lra.
Qed.

Lemma sum_nonneg (xs : list Q) :
  Forall (fun x => (0 <= x)%Q) xs -> (0 <= Py.sum xs)%Q.
Proof.
  induction 1 as [|x xs Hx _ IH].
  - change (Py.sum []) with 0%Q. lra.
  - rewrite sum_cons. lra.
Qed.

Lemma sum_replicate (n : nat) (x : Q) :
  (Py.sum (replicate n x) == of_count n * x)%Q.
Proof.
  induction n as [|n IH]; cbn [replicate].
  - change (Py.sum []) with 0%Q. change (of_count 0) with 0%Q. lra.
  - rewrite sum_cons, IH, of_count_S. lra.
Qed.

Lemma of_count_pos (n : nat) : (0 < of_count (S n))%Q.
Proof. rewrite of_count_S. pose proof (of_count_nonneg n). lra. Qed.

Lemma of_count_add (n m : nat) : (of_count (n + m) == of_count n + of_count m)%Q.
Proof. unfold of_count. now rewrite Nat2Z.inj_add, inject_Z_plus. Qed.

Section Loop.

Variable word_tokenize : string -> option (list string).
Variable G : globals.

Lemma token_score_cons (t first : string) (rest : list string) :
  token_score G t (first :: rest) = inr (token_penalty G first t).
Proof. reflexivity. Qed.

Lemma token_score_nil (t : string) :
  token_score G t [] = inl Py.IndexError.
Proof. reflexivity. Qed.

Lemma token_penalty_sum (first t : string) :
  (token_penalty G first t
   == score_before_reversal G t + reversal_penalty t first)%Q.
Proof. apply check_reversal_sum. Qed.

Lemma token_penalty_nonneg (first t : string) : (0 <= token_penalty G first t)%Q.
Proof.
  rewrite token_penalty_sum. pose proof (score_before_reversal_nonneg G t).
  unfold reversal_penalty. destruct (decide (Py.reversed t = first)); lra.
Qed.

Lemma penalties_nonneg (first : string) (ts : list string) :
  Forall (fun x => (0 <= x)%Q) (map (token_penalty G first) ts).
Proof.
  induction ts as [|t ts IH]; cbn [map]; constructor.
  - apply token_penalty_nonneg.
  - exact IH.
Qed.

Lemma score_loop_cons (word_tokens : list string) (first : string)
    (rest : list string) (acc : Q) :
  score_loop G word_tokens (first :: rest) acc
  = inr (fold_left Qplus (map (token_penalty G first) word_tokens) acc).
Proof.
  revert acc. induction word_tokens as [|t ts IH]; intros acc.
  - reflexivity.
  - cbn [score_loop map fold_left]. rewrite token_score_cons. cbn [Py.bind].
    apply IH.
Qed.

(** Past the guard, the [try] block returns the mean of the penalties. *)
Lemma score_tokens_mean (t : string) (ts : list string) (first : string)
    (rest : list string) :
  score_tokens G (t :: ts) (first :: rest)
  = inr (Py.sum (map (token_penalty G first) (t :: ts))
         / of_count (length (t :: ts)))%Q.
Proof.
  unfold score_tokens. cbn [Py.list_falsy orb].
  rewrite score_loop_cons. reflexivity.
Qed.

Lemma score_tokens_guard (word_tokens sentence_tokens : list string) :
  word_tokens = [] \/ sentence_tokens = [] ->
  score_tokens G word_tokens sentence_tokens = inr 0%Q.
Proof.
  unfold score_tokens. intros [-> | ->]; [reflexivity|].
  destruct word_tokens; reflexivity.
Qed.

Lemma score_tokens_total (word_tokens sentence_tokens : list string) :
  exists score : Q, score_tokens G word_tokens sentence_tokens = inr score.
Proof.
  destruct word_tokens as [|t ts].
  - exists 0%Q. apply score_tokens_guard. now left.
  - destruct sentence_tokens as [|first rest].
    + exists 0%Q. apply score_tokens_guard. now right.
    + eexists. apply score_tokens_mean.
Qed.

Lemma score_tokens_nonneg (word_tokens sentence_tokens : list string) (score : Q) :
  score_tokens G word_tokens sentence_tokens = inr score -> (0 <= score)%Q.
Proof.
  destruct word_tokens as [|t ts].
  - rewrite score_tokens_guard by now left. intros [= <-]. lra.
  - destruct sentence_tokens as [|first rest].
    + rewrite score_tokens_guard by now right. intros [= <-]. lra.
    + rewrite score_tokens_mean. intros [= <-].
      apply Qle_shift_div_l; [apply of_count_pos|].
      rewrite Qmult_0_l. apply sum_nonneg.
      apply (penalties_nonneg first (t :: ts)).
Qed.

End Loop.

(** ** The scorer on texts *)

Section ScorerFacts.

Variable word_tokenize : string -> option (list string).
Variable G : globals.

Local Abbreviation tokens := (tokenize_and_clean_text word_tokenize).
Local Abbreviation score := (calculate_word_dyslexia_score word_tokenize G).

Lemma score_guard (word ref : string) :
  tokens word = [] \/ tokens ref = [] -> score word ref = 0%Q.
Proof.
  intros H. unfold calculate_word_dyslexia_score, calculate_word_dyslexia_score_try.
  now rewrite score_tokens_guard.
Qed.

Lemma score_mean (word ref t : string) (ts : list string) (first : string)
    (rest : list string) :
  tokens word = t :: ts -> tokens ref = first :: rest ->
  score word ref
  = (Py.sum (map (token_penalty G first) (t :: ts))
     / of_count (length (t :: ts)))%Q.
Proof.
  intros Hw Hr. unfold calculate_word_dyslexia_score, calculate_word_dyslexia_score_try.
  now rewrite Hw, Hr, score_tokens_mean.
Qed.

Lemma score_single (word ref t first : string) (rest : list string) :
  tokens word = [t] -> tokens ref = first :: rest ->
  (score word ref == token_penalty G first t)%Q.
Proof.
  intros Hw Hr. rewrite (score_mean _ _ _ _ _ _ Hw Hr). cbn [map length].
  rewrite sum_cons. change (Py.sum []) with 0%Q. change (of_count 1) with 1%Q.
  field.
Qed.

Lemma score_replicate (word ref t : string) (n : nat) (first : string)
    (rest : list string) :
  tokens word = replicate (S n) t -> tokens ref = first :: rest ->
  (score word ref == token_penalty G first t)%Q.
Proof.
  intros Hw Hr. cbn [replicate] in Hw. rewrite (score_mean _ _ _ _ _ _ Hw Hr).
  change (t :: replicate n t) with (replicate (S n) t).
  replace (map (token_penalty G first) (replicate (S n) t))
    with (replicate (S n) (token_penalty G first t))
    by (induction (S n) as [|k IH]; cbn [replicate map]; [|rewrite IH]; reflexivity).
  rewrite sum_replicate, length_replicate.
  pose proof (of_count_pos n) as Hpos. field. lra.
Qed.

End ScorerFacts.

(** ** Claims about the scorer *)

(** C2. The reversal penalty of 3.0 is added to a token exactly when its
    character-reverse equals the first token of the reference sentence,
    whatever the position of the token in the response: a response "tac"
    scored against "cat sat on mat" carries the penalty, and scored
    against "mat sat on cat" it does not. *)
Theorem reversal_only_against_first_token
    (word_tokenize : string -> option (list string)) (G : globals) :
  (forall (t first : string) (rest : list string),
      exists penalty : Q,
        token_score G t (first :: rest) = inr penalty
        /\ (Py.reversed t = first ->
            (penalty == score_before_reversal G t + 3.0)%Q)
        /\ (Py.reversed t <> first ->
            (penalty == score_before_reversal G t)%Q))
  /\ (forall (before after : list string) (t first : string) (rest : list string) (acc : Q),
      score_loop G (before ++ t :: after)%list (first :: rest) acc
      = inr (fold_left Qplus
               (map (token_penalty G first) before
                ++ token_penalty G first t :: map (token_penalty G first) after)%list
               acc))
  /\ (tokenize_and_clean_text word_tokenize "tac" = ["tac"] ->
      tokenize_and_clean_text word_tokenize "cat sat on mat"
      = ["cat"; "sat"; "on"; "mat"] ->
      (calculate_word_dyslexia_score word_tokenize G "tac" "cat sat on mat"
       == score_before_reversal G "tac" + 3.0)%Q)
  /\ (tokenize_and_clean_text word_tokenize "tac" = ["tac"] ->
      tokenize_and_clean_text word_tokenize "mat sat on cat"
      = ["mat"; "sat"; "on"; "cat"] ->
      (calculate_word_dyslexia_score word_tokenize G "tac" "mat sat on cat"
       == score_before_reversal G "tac")%Q).
Proof.
  assert (Hyes : forall t first, Py.reversed t = first ->
            (token_penalty G first t == score_before_reversal G t + 3.0)%Q).
  { intros t first E. rewrite token_penalty_sum. unfold reversal_penalty.
    destruct (decide (Py.reversed t = first)); [lra | contradiction]. }
  assert (Hno : forall t first, Py.reversed t <> first ->
            (token_penalty G first t == score_before_reversal G t)%Q).
  { intros t first E. rewrite token_penalty_sum. unfold reversal_penalty.
    destruct (decide (Py.reversed t = first)); [contradiction | lra]. }
  repeat split.
  - intros t first rest. exists (token_penalty G first t).
    split; [apply token_score_cons | split; [apply Hyes | apply Hno]].
  - intros before after t first rest acc.
    rewrite score_loop_cons, map_app. reflexivity.
  - intros Hw Hr. rewrite (score_single _ _ _ _ _ _ _ Hw Hr).
    apply Hyes. reflexivity.
  - intros Hw Hr. rewrite (score_single _ _ _ _ _ _ _ Hw Hr).
    apply Hno. discriminate.
Qed.

Lemma reversal_only_against_first_token_witness :
  (calculate_word_dyslexia_score word_tokenize_unavailable (boot ∅)
     "tac" "cat sat on mat"
   == score_before_reversal (boot ∅) "tac" + 3.0)%Q
  /\ (calculate_word_dyslexia_score word_tokenize_unavailable (boot ∅)
        "tac" "mat sat on cat"
      == score_before_reversal (boot ∅) "tac")%Q.
Proof.
  destruct (reversal_only_against_first_token word_tokenize_unavailable (boot ∅))
    as (_ & _ & Hcat & Hmat).
  split; [apply Hcat | apply Hmat]; reflexivity.
Defined.

(** C3. The returned score is the sum of the per-token penalties divided
    by the number of response tokens.  Hence writing the tokens of a
    response twice leaves the score unchanged, a response made of copies
    of one token scores the same however many copies it has, and the score
    of "cat" equals the score of "cat cat" against every reference. *)
Theorem score_is_mean_of_token_penalties
    (word_tokenize : string -> option (list string)) (G : globals) :
  (forall (word ref first : string) (rest : list string),
      tokenize_and_clean_text word_tokenize word <> [] ->
      tokenize_and_clean_text word_tokenize ref = first :: rest ->
      calculate_word_dyslexia_score word_tokenize G word ref
      = (Py.sum (map (token_penalty G first)
                   (tokenize_and_clean_text word_tokenize word))
         / of_count (length (tokenize_and_clean_text word_tokenize word)))%Q)
  /\ (forall (word word2 ref : string),
      tokenize_and_clean_text word_tokenize word2
      = (tokenize_and_clean_text word_tokenize word
         ++ tokenize_and_clean_text word_tokenize word)%list ->
      (calculate_word_dyslexia_score word_tokenize G word2 ref
       == calculate_word_dyslexia_score word_tokenize G word ref)%Q)
  /\ (forall (word word2 ref t : string) (n m : nat),
      tokenize_and_clean_text word_tokenize word = replicate (S n) t ->
      tokenize_and_clean_text word_tokenize word2 = replicate (S m) t ->
      (calculate_word_dyslexia_score word_tokenize G word ref
       == calculate_word_dyslexia_score word_tokenize G word2 ref)%Q)
  /\ (forall ref : string,
      tokenize_and_clean_text word_tokenize "cat" = ["cat"] ->
      tokenize_and_clean_text word_tokenize "cat cat" = ["cat"; "cat"] ->
      (calculate_word_dyslexia_score word_tokenize G "cat" ref
       == calculate_word_dyslexia_score word_tokenize G "cat cat" ref)%Q).
Proof.
  assert (Hrep : forall (word word2 ref t : string) (n m : nat),
      tokenize_and_clean_text word_tokenize word = replicate (S n) t ->
      tokenize_and_clean_text word_tokenize word2 = replicate (S m) t ->
      (calculate_word_dyslexia_score word_tokenize G word ref
       == calculate_word_dyslexia_score word_tokenize G word2 ref)%Q).
  { intros word word2 ref t n m Hw Hw2.
    destruct (tokenize_and_clean_text word_tokenize ref) as [|first rest] eqn:Hr.
    - rewrite !score_guard by now right. reflexivity.
    - rewrite (score_replicate _ _ _ _ _ _ _ _ Hw Hr).
      rewrite (score_replicate _ _ _ _ _ _ _ _ Hw2 Hr). reflexivity. }
  repeat split.
  - intros word ref first rest Hne Hr.
    destruct (tokenize_and_clean_text word_tokenize word) as [|t ts] eqn:Hw;
      [contradiction|].
    exact (score_mean _ _ _ _ _ _ _ _ Hw Hr).
  - intros word word2 ref Hdup.
    destruct (tokenize_and_clean_text word_tokenize word) as [|t ts] eqn:Hw.
    + rewrite !score_guard by now left. reflexivity.
    + destruct (tokenize_and_clean_text word_tokenize ref) as [|first rest] eqn:Hr.
      * rewrite !score_guard by now right. reflexivity.
      * rewrite (score_mean _ _ _ _ _ _ _ _ Hw Hr). cbn [app] in Hdup.
        rewrite (score_mean _ _ _ _ _ _ _ _ Hdup Hr).
        change (t :: ts ++ t :: ts)%list with ((t :: ts) ++ (t :: ts))%list.
        rewrite map_app, sum_app, length_app, of_count_add.
        pose proof (of_count_pos (length ts)) as Hpos.
        change (length (t :: ts)) with (S (length ts)).
        field. lra.
  - exact Hrep.
  - intros ref Hw Hw2. exact (Hrep "cat" "cat cat" ref "cat" 0%nat 1%nat Hw Hw2).
Qed.

Lemma score_is_mean_of_token_penalties_witness :
  (calculate_word_dyslexia_score word_tokenize_unavailable (boot {["cat"]})
     "cat" "The cat sat."
   == calculate_word_dyslexia_score word_tokenize_unavailable (boot {["cat"]})
        "cat cat" "The cat sat.")%Q.
Proof.
  destruct (score_is_mean_of_token_penalties word_tokenize_unavailable (boot {["cat"]}))
    as (_ & _ & _ & Hcat).
  apply Hcat; reflexivity.
Defined.

(** C4. When the tokenization of the user response or of the reference
    sentence is empty the scorer returns 0; the empty text has no token
    (as long as the tokenizer finds no alphanumeric token in it), so the
    score of an empty response and the score against an empty reference
    are 0. *)
Theorem empty_tokens_score_zero
    (word_tokenize : string -> option (list string)) (G : globals) :
  (forall word ref : string,
      tokenize_and_clean_text word_tokenize word = []
      \/ tokenize_and_clean_text word_tokenize ref = [] ->
      calculate_word_dyslexia_score word_tokenize G word ref = 0%Q)
  /\ ((forall words, word_tokenize "" = Some words -> List.filter Py.isalnum words = []) ->
      forall anything : string,
        calculate_word_dyslexia_score word_tokenize G "" anything = 0%Q
        /\ calculate_word_dyslexia_score word_tokenize G anything "" = 0%Q).
Proof.
  split; [apply score_guard|].
  intros Hempty anything.
  assert (E : tokenize_and_clean_text word_tokenize "" = []).
  { unfold tokenize_and_clean_text. cbn [Py.lower].
    destruct (word_tokenize "") as [words|] eqn:Hw; [now apply Hempty | reflexivity]. }
  split; apply score_guard; [now left | now right].
Qed.

Lemma empty_tokens_score_zero_witness :
  calculate_word_dyslexia_score word_tokenize_unavailable (boot ∅) "" "The cat sat." = 0%Q
  /\ calculate_word_dyslexia_score word_tokenize_unavailable (boot ∅) "tac" "" = 0%Q
  /\ calculate_word_dyslexia_score word_tokenize_unavailable (boot ∅) "   " "cat" = 0%Q.
Proof.
  destruct (empty_tokens_score_zero word_tokenize_unavailable (boot ∅)) as [Hgen Hnil].
  assert (Hok : forall words,
             word_tokenize_unavailable "" = Some words -> List.filter Py.isalnum words = [])
    by discriminate.
  split; [apply (Hnil Hok "The cat sat.") | split; [apply (Hnil Hok "tac")|]].
  apply Hgen. left. reflexivity.
Defined.

(** C7. The score returned by the scorer is never negative. *)
Theorem score_nonnegative
    (word_tokenize : string -> option (list string)) (G : globals)
    (word reference_sentence : string) :
  (0 <= calculate_word_dyslexia_score word_tokenize G word reference_sentence)%Q.
Proof.
  unfold calculate_word_dyslexia_score, calculate_word_dyslexia_score_try.
  destruct (score_tokens G _ _) as [e|score] eqn:E; [lra|].
  exact (score_tokens_nonneg G _ _ _ E).
Qed.

(** C10. The guard on the two token lists makes the two partial
    operations after it safe: [sentence_tokens[0]] is never evaluated on an
    empty list and the final division never has divisor 0, so the [try]
    block of the scorer raises neither [IndexError] nor
    [ZeroDivisionError]; without the guard each of them can be raised. *)
Theorem guard_makes_partial_operations_safe
    (word_tokenize : string -> option (list string)) (G : globals) :
  (forall word reference_sentence : string,
      exists score : Q,
        calculate_word_dyslexia_score_try word_tokenize G word reference_sentence
        = inr score)
  /\ (forall word_tokens sentence_tokens : list string,
      Py.list_falsy word_tokens || Py.list_falsy sentence_tokens = false ->
      (exists first : string, Py.item0 sentence_tokens = inr first)
      /\ (exists total : Q, score_loop G word_tokens sentence_tokens 0%Q = inr total)
      /\ (forall total : Q, exists mean : Q,
             Py.truediv total (length word_tokens) = inr mean))
  /\ (forall t : string, score_loop G [t] [] 0%Q = inl Py.IndexError)
  /\ (forall total : Q, Py.truediv total (length (@nil string)) = inl Py.ZeroDivisionError).
Proof.
  repeat split.
  - intros word ref. apply score_tokens_total.
  - destruct sentence_tokens as [|first rest].
    + rewrite orb_true_r in H. discriminate.
    + exists first. reflexivity.
  - destruct sentence_tokens as [|first rest].
    + rewrite orb_true_r in H. discriminate.
    + eexists. apply score_loop_cons.
  - intros total. destruct word_tokens as [|t ts]; [discriminate|].
    eexists. reflexivity.
Qed.

Lemma guard_makes_partial_operations_safe_witness :
  (exists first : string, Py.item0 ["cat"; "sat"] = inr first)
  /\ (exists total : Q,
        score_loop (boot ∅) ["tac"] ["cat"; "sat"] 0%Q = inr total)
  /\ (forall total : Q, exists mean : Q,
        Py.truediv total (length ["tac"]) = inr mean).
Proof.
  destruct (guard_makes_partial_operations_safe word_tokenize_unavailable (boot ∅))
    as (_ & Hsafe & _).
  apply (Hsafe ["tac"] ["cat"; "sat"]). reflexivity.
Defined.

(** ** Claims about the aggregator and the routes *)

Lemma aggregate_insufficient (responses : list string) (scores : list Q) :
  responses = [] \/ scores = [] ->
  aggregate responses scores = inr InsufficientData.
Proof.
  unfold aggregate. intros [-> | ->]; [reflexivity|].
  destruct responses; reflexivity.
Qed.

Lemma aggregate_sufficient (responses : list string) (scores : list Q) :
  responses <> [] -> scores <> [] ->
  aggregate responses scores = inr (Aggregated (mean scores) (verdict_of (mean scores))).
Proof.
  intros Hr Hs. destruct responses as [|r rs]; [contradiction|].
  destruct scores as [|x xs]; [contradiction|]. reflexivity.
Qed.

Lemma verdict_positive_iff (avg_score : Q) :
  verdict_of avg_score = VERDICT_POSITIVE
  <-> (DYSLEXIA_SCORE_THRESHOLD <= avg_score)%Q.
Proof.
  unfold verdict_of. rewrite <- Qle_bool_iff.
  destruct (Qle_bool DYSLEXIA_SCORE_THRESHOLD avg_score); split;
    try reflexivity; discriminate.
Qed.

Lemma verdict_negative_iff (avg_score : Q) :
  verdict_of avg_score = VERDICT_NEGATIVE
  <-> (avg_score < DYSLEXIA_SCORE_THRESHOLD)%Q.
Proof.
  unfold verdict_of.
  destruct (Qle_bool DYSLEXIA_SCORE_THRESHOLD avg_score) eqn:E; split.
  - discriminate.
  - intros Hlt. apply Qle_bool_iff in E. exfalso. exact (Qlt_not_le _ _ Hlt E).
  - intros _. apply Qnot_le_lt. intros Hle. apply Qle_bool_iff in Hle. congruence.
  - reflexivity.
Qed.

(** C5. Given no attempt (no response or no score) the aggregator reports
    the error "Insufficient data"; given at least one attempt it returns
    the mean [sum(scores) / len(scores)] and the positive verdict exactly
    when the mean is at least 3.5, the negative one otherwise.  The scores
    2.0 and 5.0 have mean 3.5 and the positive verdict; three scores 1.0
    have mean 1.0 and the negative verdict. *)
Theorem aggregate_mean_and_verdict :
  (forall (responses : list string) (scores : list Q),
      responses = [] \/ scores = [] ->
      aggregate responses scores = inr InsufficientData)
  /\ (forall (generate_pdf_report : user_data -> list string -> list Q -> option string)
        (data : report_request),
      get (responses data) [] = [] \/ get (scores data) [] = [] ->
      generate_final_report generate_pdf_report data
      = {| status := 200; body := ErrorBody "Insufficient data" |})
  /\ (forall (responses : list string) (scores : list Q),
      responses <> [] -> scores <> [] ->
      aggregate responses scores
      = inr (Aggregated (Py.sum scores / of_count (length scores))
               (verdict_of (Py.sum scores / of_count (length scores)))))
  /\ (forall avg_score : Q,
      (verdict_of avg_score = VERDICT_POSITIVE <-> (3.5 <= avg_score)%Q)
      /\ (verdict_of avg_score = VERDICT_NEGATIVE <-> (avg_score < 3.5)%Q))
  /\ (forall r1 r2 : string,
      exists avg_score : Q,
        aggregate [r1; r2] [2.0; 5.0]%Q = inr (Aggregated avg_score VERDICT_POSITIVE)
        /\ (avg_score == 3.5)%Q)
  /\ (forall r1 r2 r3 : string,
      exists avg_score : Q,
        aggregate [r1; r2; r3] [1.0; 1.0; 1.0]%Q
        = inr (Aggregated avg_score VERDICT_NEGATIVE)
        /\ (avg_score == 1.0)%Q).
Proof.
  split; [exact aggregate_insufficient|].
  split.
  { intros pdf data H. unfold generate_final_report.
    now rewrite (aggregate_insufficient _ _ H). }
  split; [exact aggregate_sufficient|].
  split.
  { intros avg. split; [apply verdict_positive_iff | apply verdict_negative_iff]. }
  split.
  - intros r1 r2. eexists. split; [reflexivity|reflexivity].
  - intros r1 r2 r3. eexists. split; [reflexivity|reflexivity].
Qed.

Lemma aggregate_mean_and_verdict_witness :
  aggregate [] [] = inr InsufficientData
  /\ aggregate [] [5.0%Q] = inr InsufficientData
  /\ aggregate ["teh cat"; "the cat"] [2.0; 5.0]%Q
     = inr (Aggregated (Py.sum [2.0; 5.0]%Q / of_count 2)
              (verdict_of (Py.sum [2.0; 5.0]%Q / of_count 2))).
Proof.
  destruct aggregate_mean_and_verdict as (Hnone & _ & Hsome & _).
  split; [apply Hnone; now left | split; [apply Hnone; now left|]].
  apply (Hsome ["teh cat"; "the cat"] [2.0; 5.0]%Q); discriminate.
Defined.

Lemma analyze_response_texts
    (word_tokenize : string -> option (list string)) (G : globals)
    (data : analyze_request) (user_text reference_sentence : string) :
  strip_value (get (userText data) (JString "")) = inr user_text ->
  strip_value (get (sentence data) (JString "")) = inr reference_sentence ->
  analyze_response word_tokenize G data
  = if Py.str_falsy user_text || Py.str_falsy reference_sentence
    then jsonify (ErrorBody "Invalid input")
    else jsonify (ScoreBody
                    (calculate_word_dyslexia_score word_tokenize G
                       user_text reference_sentence) true).
Proof.
  intros Hu Hr. unfold analyze_response, analyze_response_try.
  rewrite Hu, Hr. cbn [Py.bind].
  destruct (Py.str_falsy user_text || Py.str_falsy reference_sentence); reflexivity.
Qed.

(** A field that is not a string makes [strip] fail, and the handler
    answers with status 500. *)
Lemma analyze_response_not_a_string
    (word_tokenize : string -> option (list string)) (G : globals)
    (data : analyze_request) :
  userText data = Some JOther \/ sentence data = Some JOther ->
  analyze_response word_tokenize G data
  = {| status := 500; body := ErrorBody "Error processing response" |}.
Proof.
  unfold analyze_response, analyze_response_try. intros [H | H]; rewrite H.
  - reflexivity.
  - destruct (strip_value (get (userText data) (JString ""))); reflexivity.
Qed.

(** C6. A request to [analyze_response] whose [userText] or [sentence]
    is empty after trimming white space (an absent field counts as empty)
    is answered with status 200 and the body [{"error": "Invalid input"}];
    every other request with two texts is answered with status 200 and
    the body [{"score": s, "isValid": true}], where [s] is the scorer's
    result on the two trimmed texts. *)
Theorem analyze_response_contract
    (word_tokenize : string -> option (list string)) (G : globals)
    (data : analyze_request) (user_text reference_sentence : string) :
  strip_value (get (userText data) (JString "")) = inr user_text ->
  strip_value (get (sentence data) (JString "")) = inr reference_sentence ->
  (user_text = "" \/ reference_sentence = "" ->
   analyze_response word_tokenize G data
   = {| status := 200; body := ErrorBody "Invalid input" |})
  /\ (user_text <> "" -> reference_sentence <> "" ->
      analyze_response word_tokenize G data
      = {| status := 200;
           body := ScoreBody
                     (calculate_word_dyslexia_score word_tokenize G
                        user_text reference_sentence)
                     true |}).
Proof.
  intros Hu Hr. rewrite (analyze_response_texts _ _ _ _ _ Hu Hr). split.
  - intros [-> | ->]; [reflexivity|]. now rewrite orb_true_r.
  - intros Hne1 Hne2. destruct user_text; [contradiction|].
    destruct reference_sentence; [contradiction|]. reflexivity.
Qed.

Lemma analyze_response_contract_witness :
  analyze_response word_tokenize_unavailable (boot ∅)
    {| userText := Some (JString "   "); sentence := Some (JString "The cat sat.") |}
  = {| status := 200; body := ErrorBody "Invalid input" |}
  /\ analyze_response word_tokenize_unavailable (boot ∅)
       {| userText := Some (JString " tac "); sentence := Some (JString "cat sat") |}
     = {| status := 200;
          body := ScoreBody
                    (calculate_word_dyslexia_score word_tokenize_unavailable (boot ∅)
                       "tac" "cat sat")
                    true |}.
Proof.
  split.
  - apply (analyze_response_contract word_tokenize_unavailable (boot ∅)
             {| userText := Some (JString "   ");
                sentence := Some (JString "The cat sat.") |}
             "" "The cat sat." eq_refl eq_refl).
    left. reflexivity.
  - apply (analyze_response_contract word_tokenize_unavailable (boot ∅)
             {| userText := Some (JString " tac ");
                sentence := Some (JString "cat sat") |}
             "tac" "cat sat" eq_refl eq_refl);
      discriminate.
Defined.

(** *** The session bound *)

(** The bound does not hold of the code: the session [four_attempts] has
    four attempts and is answered with a report. *)
Lemma report_for_four_attempts : ~ report_only_within_bound.
Proof.
  intros Hbound.
  destruct (Hbound renderer_ok four_attempts _ _ _ eq_refl) as [Hlen _].
  unfold MAX_ATTEMPTS in Hlen. cbn in Hlen. lia.
Qed.

(** C8. A session is an ordered sequence of attempts and [MAX_ATTEMPTS]
    is 3, but report generation does not enforce the bound: every
    request with at least one response and one score is aggregated and,
    when the renderer succeeds, answered with a report, however many
    attempts it carries. *)
Theorem report_generation_ignores_max_attempts
    (generate_pdf_report : user_data -> list string -> list Q -> option string)
    (data : report_request) (pdf_path : string) :
  get (responses data) [] <> [] ->
  get (scores data) [] <> [] ->
  generate_pdf_report
    {| name := get (userName data) "Unknown"; id := get (userId data) "Unknown" |}
    (get (responses data) []) (get (scores data) []) = Some pdf_path ->
  MAX_ATTEMPTS = 3%nat
  /\ generate_final_report generate_pdf_report data
     = {| status := 200;
          body := ReportBody (mean (get (scores data) []))
                    (verdict_of (mean (get (scores data) []))) pdf_path |}.
Proof.
  intros Hr Hs Hpdf. split; [reflexivity|].
  unfold generate_final_report.
  rewrite (aggregate_sufficient _ _ Hr Hs), Hpdf. reflexivity.
Qed.

Lemma report_generation_ignores_max_attempts_witness :
  (MAX_ATTEMPTS < length (get (responses four_attempts) []))%nat
  /\ MAX_ATTEMPTS = 3%nat
  /\ generate_final_report renderer_ok four_attempts
     = {| status := 200;
          body := ReportBody (mean [3.0; 0; 3.0; 0]%Q)
                    (verdict_of (mean [3.0; 0; 3.0; 0]%Q))
                    "static/reports/dyslexia_report_Ann.pdf" |}.
Proof.
  split; [unfold MAX_ATTEMPTS; cbn; lia|].
  apply (report_generation_ignores_max_attempts renderer_ok four_attempts
           "static/reports/dyslexia_report_Ann.pdf");
    [discriminate | discriminate | reflexivity].
Defined.

(** ** Worked examples *)

Example bad_hits_one_pair :
  pairs_hit DYSLEXIC_LETTER_CONFUSIONS "bad" = [("b", "d")].
Proof. reflexivity. Qed.

Example there_hits_two_groups :
  groups_hit DYSLEXIC_WORD_CONFUSIONS "there"
  = [["there"; "their"]; ["their"; "there"]].
Proof. reflexivity. Qed.

Example score_tac_first_token_cat :
  (calculate_word_dyslexia_score word_tokenize_unavailable (boot ∅)
     "tac" "cat sat on mat" == 6.0)%Q.
Proof. reflexivity. Qed.

Example score_tac_first_token_mat :
  (calculate_word_dyslexia_score word_tokenize_unavailable (boot ∅)
     "tac" "mat sat on cat" == 3.0)%Q.
Proof. reflexivity. Qed.

Example score_there_known :
  (calculate_word_dyslexia_score word_tokenize_unavailable (boot {["there"]})
     "there" "They are here." == 8.0)%Q.
Proof. reflexivity. Qed.

Example fallback_split_keeps_punctuation :
  tokenize_and_clean_text word_tokenize_unavailable "The cat, SAT."
  = ["the"; "cat,"; "sat."].
Proof. reflexivity. Qed.

Example tokenizer_drops_punctuation :
  tokenize_and_clean_text (fun _ => Some ["the"; "cat"; ","; "sat"; "."]) "The cat, SAT."
  = ["the"; "cat"; "sat"].
Proof. reflexivity. Qed.

(** ** Further properties of the tokenizer *)

Lemma char_lower_idempotent (c : ascii) :
  Py.char_lower (Py.char_lower c) = Py.char_lower c.
Proof. destruct c as [[] [] [] [] [] [] [] []]; reflexivity. Qed.

Lemma char_isspace_lower (c : ascii) :
  Py.char_isspace (Py.char_lower c) = Py.char_isspace c.
Proof. destruct c as [[] [] [] [] [] [] [] []]; reflexivity. Qed.

Lemma char_isalnum_not_space (c : ascii) :
  Py.char_isalnum c = true -> Py.char_isspace c = false.
Proof. destruct c as [[] [] [] [] [] [] [] []]; cbv; congruence. Qed.

Lemma lower_idempotent (s : string) : Py.lower (Py.lower s) = Py.lower s.
Proof.
  induction s as [|c s IH]; [reflexivity|].
  cbn [Py.lower]. now rewrite char_lower_idempotent, IH.
Qed.

Lemma chars_of_lower (s : string) :
  list_ascii_of_string (Py.lower s) = map Py.char_lower (list_ascii_of_string s).
Proof.
  induction s as [|c s IH]; [reflexivity|].
  cbn [Py.lower list_ascii_of_string map]. now rewrite IH.
Qed.

Lemma lower_of_chars (cs : list ascii) :
  Py.lower (string_of_list_ascii cs) = string_of_list_ascii (map Py.char_lower cs).
Proof.
  induction cs as [|c cs IH]; [reflexivity|].
  cbn [string_of_list_ascii Py.lower map]. now rewrite IH.
Qed.

Lemma lstrip_nil_iff (cs : list ascii) : Py.lstrip_chars cs = [] <-> blank cs.
Proof.
  unfold blank. induction cs as [|c cs IH]; cbn [Py.lstrip_chars].
  - split; [constructor | reflexivity].
  - destruct (Py.char_isspace c) eqn:E.
    + rewrite IH. split; [now constructor | now inversion 1].
    + split; [discriminate | inversion 1; congruence].
Qed.

Lemma lstrip_blank_app (ws cs : list ascii) :
  blank ws -> Py.lstrip_chars (ws ++ cs) = Py.lstrip_chars cs.
Proof.
  induction 1 as [|w ws Hw _ IH]; [reflexivity|].
  cbn [app Py.lstrip_chars]. now rewrite Hw.
Qed.

(** [lstrip_chars] removes a blank prefix and stops at a character that
    is not white space. *)
Lemma lstrip_split (cs : list ascii) :
  exists ws, blank ws /\ cs = ws ++ Py.lstrip_chars cs
             /\ match Py.lstrip_chars cs with
                | [] => True
                | c :: _ => Py.char_isspace c = false
                end.
Proof.
  induction cs as [|c cs (ws & Hws & Heq & Hhd)].
  - exists []. repeat split. constructor.
  - cbn [Py.lstrip_chars]. destruct (Py.char_isspace c) eqn:E.
    + exists (c :: ws). repeat split; [now constructor | | exact Hhd].
      cbn [app]. now rewrite <- Heq.
    + exists []. repeat split; [constructor | exact E].
Qed.

Lemma blank_rev (cs : list ascii) : blank cs -> blank (rev cs).
Proof. unfold blank. rewrite !List.Forall_forall. intros H c Hc. apply H. now apply in_rev. Qed.

(** The characters of [s.strip()]: a blank prefix and a blank suffix are
    removed from the characters of [s]; what remains does not start or
    end with white space. *)
Lemma strip_split (s : string) :
  exists pre post,
    blank pre /\ blank post
    /\ list_ascii_of_string s = pre ++ list_ascii_of_string (Py.strip s) ++ post.
Proof.
  unfold Py.strip. rewrite list_ascii_of_string_of_list_ascii.
  destruct (lstrip_split (list_ascii_of_string s)) as (pre & Hpre & Heq & _).
  destruct (lstrip_split (rev (Py.lstrip_chars (list_ascii_of_string s))))
    as (post & Hpost & Heq2 & _).
  exists pre, (rev post). repeat split; [exact Hpre | now apply blank_rev|].
  rewrite <- rev_app_distr, <- Heq2, rev_involutive. exact Heq.
Qed.

Lemma strip_empty_iff (s : string) :
  Py.strip s = "" <-> blank (list_ascii_of_string s).
Proof.
  split.
  - intros E. destruct (strip_split s) as (pre & post & Hpre & Hpost & Heq).
    rewrite E in Heq. cbn in Heq. rewrite Heq. unfold blank in *.
    apply Forall_app. now split.
  - intros Hb. unfold Py.strip.
    apply lstrip_nil_iff in Hb. rewrite Hb. reflexivity.
Qed.

Lemma flush_cons (c : ascii) (acc : list ascii) :
  Py.flush (c :: acc) = [string_of_list_ascii (rev (c :: acc))].
Proof. reflexivity. Qed.

Lemma split_go_blank (acc ws : list ascii) :
  blank ws -> Py.split_go acc ws = Py.flush acc.
Proof.
  intros H. revert acc. induction H as [|w ws Hw _ IH]; intros acc; [reflexivity|].
  cbn [Py.split_go]. rewrite Hw, IH. cbn [Py.flush]. apply app_nil_r.
Qed.

Lemma split_go_app_blank (acc cs ws : list ascii) :
  blank ws -> Py.split_go acc (cs ++ ws) = Py.split_go acc cs.
Proof.
  intros H. revert acc. induction cs as [|c cs IH]; intros acc; cbn [app Py.split_go].
  - now apply split_go_blank.
  - destruct (Py.char_isspace c); now rewrite IH.
Qed.

Lemma split_go_blank_app (ws cs : list ascii) :
  blank ws -> Py.split_go [] (ws ++ cs) = Py.split_go [] cs.
Proof.
  induction 1 as [|w ws Hw _ IH]; [reflexivity|].
  cbn [app Py.split_go]. now rewrite Hw.
Qed.

Lemma split_go_nonempty (c : ascii) (acc cs : list ascii) :
  Py.split_go (c :: acc) cs <> [].
Proof.
  revert c acc. induction cs as [|d cs IH]; intros c acc; cbn [Py.split_go].
  - discriminate.
  - destruct (Py.char_isspace d); [discriminate | apply IH].
Qed.

Lemma split_go_nil_iff (cs : list ascii) : Py.split_go [] cs = [] <-> blank cs.
Proof.
  split.
  - induction cs as [|c cs IH]; [constructor|]. cbn [Py.split_go].
    destruct (Py.char_isspace c) eqn:E.
    + intros H. constructor; [exact E | now apply IH].
    + intros H. now apply split_go_nonempty in H.
  - intros H. now apply split_go_blank.
Qed.

Lemma flush_tokens (acc : list ascii) (t : string) :
  solid acc -> In t (Py.flush acc) ->
  t <> "" /\ solid (list_ascii_of_string t).
Proof.
  intros Hacc. destruct acc as [|a acc]; [intros []|]. intros [<- | []]. split.
  - intros E. apply (f_equal list_ascii_of_string) in E.
    rewrite list_ascii_of_string_of_list_ascii in E. cbn in E.
    now apply app_eq_nil in E as [_ E].
  - rewrite list_ascii_of_string_of_list_ascii. unfold solid in *.
    now apply Forall_rev.
Qed.

(** Every string produced by the split is a non-empty run without white
    space. *)
Lemma split_go_tokens (acc cs : list ascii) (t : string) :
  solid acc -> In t (Py.split_go acc cs) ->
  t <> "" /\ solid (list_ascii_of_string t).
Proof.
  revert acc. induction cs as [|c cs IH]; intros acc Hacc; cbn [Py.split_go].
  - now apply flush_tokens.
  - destruct (Py.char_isspace c) eqn:E.
    + intros H. apply in_app_or in H as [H | H].
      * now apply (flush_tokens acc).
      * apply (IH []); [constructor | exact H].
    + apply IH. now constructor.
Qed.

Lemma isalnum_chars (t : string) :
  Py.isalnum t = true ->
  t <> "" /\ Forall (fun c => Py.char_isalnum c = true) (list_ascii_of_string t).
Proof.
  destruct t as [|c t]; [discriminate|]. unfold Py.isalnum.
  rewrite forallb_forall, List.Forall_forall. intros H. split; [discriminate | exact H].
Qed.

Lemma blank_lower (cs : list ascii) : blank (map Py.char_lower cs) <-> blank cs.
Proof.
  unfold blank. induction cs as [|c cs IH]; cbn [map].
  - split; constructor.
  - split; inversion 1; subst; constructor;
      try (now apply IH); now rewrite ?char_isspace_lower in *.
Qed.

(** X1. Whatever NLTK returns, and also when it fails and the text is
    split at white space, a token is never the empty string and never
    contains white space. *)
Theorem tokens_are_words
    (word_tokenize : string -> option (list string)) (text t : string) :
  In t (tokenize_and_clean_text word_tokenize text) ->
  t <> ""
  /\ Forall (fun c => Py.char_isspace c = false) (list_ascii_of_string t).
Proof.
  unfold tokenize_and_clean_text.
  destruct (word_tokenize (Py.lower text)) as [words|].
  - intros H. apply filter_In in H as [_ H].
    destruct (isalnum_chars t H) as [Hne Hall].
    split; [exact Hne|].
    exact (List.Forall_impl _ char_isalnum_not_space Hall).
  - intros H. unfold Py.split in H.
    assert (Hnil : forall P : ascii -> Prop, Forall P []) by constructor.
    exact (split_go_tokens [] _ t (Hnil _) H).
Qed.

Lemma tokens_are_words_witness :
  "cat" <> ""
  /\ Forall (fun c => Py.char_isspace c = false) (list_ascii_of_string "cat").
Proof.
  apply (tokens_are_words word_tokenize_unavailable "The  CAT " "cat").
  cbn. right. left. reflexivity.
Defined.

(** X2. The scorer does not see the case of ASCII letters: two texts with
    the same lower-casing have the same tokens and can be exchanged as
    response or as reference without changing the score, and lower-casing
    both texts first changes nothing. *)
Theorem scorer_ignores_case
    (word_tokenize : string -> option (list string)) (G : globals)
    (a b other : string) :
  Py.lower a = Py.lower b ->
  tokenize_and_clean_text word_tokenize a = tokenize_and_clean_text word_tokenize b
  /\ calculate_word_dyslexia_score word_tokenize G a other
     = calculate_word_dyslexia_score word_tokenize G b other
  /\ calculate_word_dyslexia_score word_tokenize G other a
     = calculate_word_dyslexia_score word_tokenize G other b
  /\ calculate_word_dyslexia_score word_tokenize G (Py.lower a) (Py.lower other)
     = calculate_word_dyslexia_score word_tokenize G a other.
Proof.
  intros E.
  assert (Htok : tokenize_and_clean_text word_tokenize a
                 = tokenize_and_clean_text word_tokenize b).
  { unfold tokenize_and_clean_text. now rewrite E. }
  assert (Hlow : forall s, tokenize_and_clean_text word_tokenize (Py.lower s)
                           = tokenize_and_clean_text word_tokenize s).
  { intros s. unfold tokenize_and_clean_text. now rewrite lower_idempotent. }
  split; [exact Htok|].
  unfold calculate_word_dyslexia_score, calculate_word_dyslexia_score_try.
  rewrite !Hlow, Htok. repeat split.
Qed.

Lemma scorer_ignores_case_witness :
  calculate_word_dyslexia_score word_tokenize_unavailable (boot ∅) "TAC" "cat sat"
  = calculate_word_dyslexia_score word_tokenize_unavailable (boot ∅) "tac" "cat sat".
Proof.
  apply (scorer_ignores_case word_tokenize_unavailable (boot ∅) "TAC" "tac" "cat sat").
  reflexivity.
Defined.

Section Fallback.

Local Abbreviation split_tokens := (tokenize_and_clean_text word_tokenize_unavailable).

Lemma split_tokens_eq (text : string) :
  split_tokens text
  = Py.split_go [] (map Py.char_lower (list_ascii_of_string text)).
Proof.
  unfold tokenize_and_clean_text, word_tokenize_unavailable, Py.split.
  now rewrite chars_of_lower.
Qed.

Lemma split_tokens_nil_iff (text : string) :
  split_tokens text = [] <-> Py.strip text = "".
Proof.
  now rewrite split_tokens_eq, split_go_nil_iff, blank_lower, strip_empty_iff.
Qed.

Lemma split_tokens_strip (text : string) :
  split_tokens (Py.strip text) = split_tokens text.
Proof.
  rewrite !split_tokens_eq.
  destruct (strip_split text) as (pre & post & Hpre & Hpost & ->).
  rewrite !map_app, split_go_blank_app by now apply blank_lower.
  now rewrite split_go_app_blank by now apply blank_lower.
Qed.

End Fallback.

(** X3. When NLTK is unavailable, the input validation of
    [analyze_response] and the guard of the scorer agree: a text has no
    token exactly when it is empty after trimming.  So a request that
    passes the validation is scored on two non-empty token lists, as the
    mean of its token penalties. *)
Theorem fallback_validation_matches_guard (G : globals) :
  (forall text : string,
      tokenize_and_clean_text word_tokenize_unavailable text = []
      <-> Py.strip text = "")
  /\ (forall user_text reference_sentence : string,
      Py.strip user_text <> "" -> Py.strip reference_sentence <> "" ->
      exists (t : string) (ts : list string) (first : string) (rest : list string),
        tokenize_and_clean_text word_tokenize_unavailable user_text = t :: ts
        /\ tokenize_and_clean_text word_tokenize_unavailable reference_sentence
           = first :: rest
        /\ calculate_word_dyslexia_score word_tokenize_unavailable G
             user_text reference_sentence
           = (Py.sum (map (token_penalty G first) (t :: ts))
              / of_count (length (t :: ts)))%Q).
Proof.
  split; [exact split_tokens_nil_iff|].
  intros u r Hu Hr.
  destruct (tokenize_and_clean_text word_tokenize_unavailable u) as [|t ts] eqn:Eu.
  { now apply split_tokens_nil_iff in Eu. }
  destruct (tokenize_and_clean_text word_tokenize_unavailable r) as [|first rest] eqn:Er.
  { now apply split_tokens_nil_iff in Er. }
  exists t, ts, first, rest. repeat split.
  exact (score_mean _ G u r t ts first rest Eu Er).
Qed.

Lemma fallback_validation_matches_guard_witness :
  exists (t : string) (ts : list string) (first : string) (rest : list string),
    tokenize_and_clean_text word_tokenize_unavailable " teh cat " = t :: ts
    /\ tokenize_and_clean_text word_tokenize_unavailable "The cat." = first :: rest
    /\ calculate_word_dyslexia_score word_tokenize_unavailable (boot ∅)
         " teh cat " "The cat."
       = (Py.sum (map (token_penalty (boot ∅) first) (t :: ts))
          / of_count (length (t :: ts)))%Q.
Proof.
  destruct (fallback_validation_matches_guard (boot ∅)) as [_ H].
  apply H; discriminate.
Defined.

(** X4. When NLTK is unavailable, trimming a text does not change its
    tokens, so the score that [analyze_response] returns for the trimmed
    texts is the score of the texts as they were sent. *)
Theorem fallback_trimming_is_neutral (G : globals) (user_text reference_sentence : string) :
  tokenize_and_clean_text word_tokenize_unavailable (Py.strip user_text)
  = tokenize_and_clean_text word_tokenize_unavailable user_text
  /\ calculate_word_dyslexia_score word_tokenize_unavailable G
       (Py.strip user_text) (Py.strip reference_sentence)
     = calculate_word_dyslexia_score word_tokenize_unavailable G
         user_text reference_sentence.
Proof.
  split; [apply split_tokens_strip|].
  unfold calculate_word_dyslexia_score, calculate_word_dyslexia_score_try.
  now rewrite !split_tokens_strip.
Qed.

(** ** Further properties of the scorer *)

Lemma sum_bounds (lo hi : Q) (xs : list Q) :
  Forall (fun x => (lo <= x <= hi)%Q) xs ->
  (of_count (length xs) * lo <= Py.sum xs <= of_count (length xs) * hi)%Q.
Proof.
  induction 1 as [|x xs [Hlo Hhi] _ IH].
  - change (Py.sum []) with 0%Q. cbn [length]. change (of_count 0) with 0%Q. lra.
  - rewrite sum_cons. cbn [length]. rewrite of_count_S. lra.
Qed.

Lemma mean_bounds (lo hi : Q) (x : Q) (xs : list Q) :
  Forall (fun y => (lo <= y <= hi)%Q) (x :: xs) ->
  (lo <= Py.sum (x :: xs) / of_count (length (x :: xs)) <= hi)%Q.
Proof.
  intros H. apply sum_bounds in H. cbn [length] in *.
  pose proof (of_count_pos (length xs)) as Hpos. split.
  - apply Qle_shift_div_l; [exact Hpos | lra].
  - apply Qle_shift_div_r; [exact Hpos | lra].
Qed.

Lemma sum_le (xs ys : list Q) :
  Forall2 Qle xs ys -> (Py.sum xs <= Py.sum ys)%Q.
Proof.
  induction 1 as [|x y xs ys Hxy _ IH].
  - lra.
  - rewrite !sum_cons. lra.
Qed.

Lemma sum_permutation (xs ys : list Q) :
  Permutation xs ys -> (Py.sum xs == Py.sum ys)%Q.
Proof.
  induction 1 as [|x xs ys _ IH|x y xs|xs ys zs _ IH1 _ IH2].
  - reflexivity.
  - rewrite !sum_cons, IH. reflexivity.
  - rewrite !sum_cons. lra.
  - now rewrite IH1.
Qed.

Lemma sum_zero_iff (xs : list Q) :
  Forall (fun x => (0 <= x)%Q) xs ->
  (Py.sum xs == 0)%Q <-> Forall (fun x => (x == 0)%Q) xs.
Proof.
  induction 1 as [|x xs Hx Hxs IH].
  - split; [constructor | reflexivity].
  - rewrite sum_cons. pose proof (sum_nonneg xs Hxs) as Hs. split.
    + intros E. constructor; [lra | apply IH; lra].
    + inversion 1 as [|? ? E1 E2]; subst. apply IH in E2. lra.
Qed.

Lemma filter_length_le {A : Type} (P : A -> Prop) `{!forall x, Decision (P x)}
    (l : list A) :
  (of_count (length (filter P l)) <= of_count (length l))%Q.
Proof.
  unfold of_count. rewrite <- Zle_Qle. apply Nat2Z.inj_le, length_filter.
Qed.

Section Bounds.

Variable G : globals.

Lemma token_penalty_le_cap (first t : string) : (token_penalty G first t <= penalty_cap G)%Q.
Proof.
  rewrite token_penalty_sum, score_before_reversal_sum. unfold penalty_cap.
  pose proof (filter_length_le (pair_hit t) (letter_confusions G)) as Hp.
  pose proof (filter_length_le (fun g => t ∈ g) (word_confusions G)) as Hg.
  fold (pairs_hit (letter_confusions G) t) in Hp.
  fold (groups_hit (word_confusions G) t) in Hg.
  unfold unknown_penalty, reversal_penalty.
  destruct (decide (t ∈ english_vocab G)), (decide (Py.reversed t = first)); lra.
Qed.

Lemma token_penalty_unknown (first t : string) :
  t ∉ english_vocab G -> (3 <= token_penalty G first t)%Q.
Proof.
  intros Hout. rewrite token_penalty_sum, score_before_reversal_sum.
  pose proof (of_count_nonneg (length (pairs_hit (letter_confusions G) t))).
  pose proof (of_count_nonneg (length (groups_hit (word_confusions G) t))).
  unfold unknown_penalty, reversal_penalty.
  destruct (decide (t ∈ english_vocab G)); [contradiction|].
  destruct (decide (Py.reversed t = first)); lra.
Qed.

Lemma token_penalty_zero_iff (first t : string) :
  (token_penalty G first t == 0)%Q
  <-> t ∈ english_vocab G
      /\ pairs_hit (letter_confusions G) t = []
      /\ groups_hit (word_confusions G) t = []
      /\ Py.reversed t <> first.
Proof.
  rewrite token_penalty_sum, score_before_reversal_sum.
  pose proof (of_count_nonneg (length (pairs_hit (letter_confusions G) t))) as Hp.
  pose proof (of_count_nonneg (length (groups_hit (word_confusions G) t))) as Hg.
  unfold unknown_penalty, reversal_penalty. split.
  - intros E.
    destruct (decide (Py.reversed t = first));
      destruct (decide (t ∈ english_vocab G)); try lra.
    destruct (pairs_hit (letter_confusions G) t) as [|p ps].
    + destruct (groups_hit (word_confusions G) t) as [|g gs]; [tauto|].
      cbn [length] in *. rewrite of_count_S in E.
      pose proof (of_count_nonneg (length gs)). change (of_count 0) with 0%Q in E. lra.
    + cbn [length] in *. rewrite of_count_S in E.
      pose proof (of_count_nonneg (length ps)). lra.
  - intros (Hin & -> & -> & Hrev).
    destruct (decide (t ∈ english_vocab G)); [|contradiction].
    destruct (decide (Py.reversed t = first)); [contradiction|].
    cbn [length]. change (of_count 0) with 0%Q. lra.
Qed.

End Bounds.

Lemma pointwise_le (f g : string -> Q) (l : list string) :
  (forall x, (f x <= g x)%Q) -> Forall2 Qle (map f l) (map g l).
Proof. intros H. induction l; cbn [map]; constructor; auto. Qed.

Lemma div_le_div (a b : Q) (n : nat) :
  (a <= b)%Q -> (a / of_count (S n) <= b / of_count (S n))%Q.
Proof.
  intros H. apply Qmult_le_compat_r; [exact H|].
  apply Qinv_le_0_compat, Qlt_le_weak, of_count_pos.
Qed.

Section ScoreShape.

Variable word_tokenize : string -> option (list string).
Variable G : globals.

Local Abbreviation tokens' := (tokenize_and_clean_text word_tokenize).
Local Abbreviation score' := (calculate_word_dyslexia_score word_tokenize G).

(** The two ways a score comes about. *)
Lemma score_cases (word ref : string) :
  ((tokens' word = [] \/ tokens' ref = []) /\ score' word ref = 0%Q)
  \/ (exists t ts first rest,
        tokens' word = t :: ts /\ tokens' ref = first :: rest
        /\ score' word ref
           = (Py.sum (map (token_penalty G first) (t :: ts))
              / of_count (length (t :: ts)))%Q).
Proof.
  destruct (tokens' word) as [|t ts] eqn:Ew.
  { left. split; [now left | apply score_guard; now left]. }
  destruct (tokens' ref) as [|first rest] eqn:Er.
  { left. split; [now right | apply score_guard; now right]. }
  right. exists t, ts, first, rest. repeat split.
  exact (score_mean _ G word ref t ts first rest Ew Er).
Qed.

(** A score lies between any two bounds on its token penalties. *)
Lemma score_in_range (lo hi : Q) (word ref t : string) (ts : list string)
    (first : string) (rest : list string) :
  tokens' word = t :: ts -> tokens' ref = first :: rest ->
  (forall x, In x (t :: ts) -> (lo <= token_penalty G first x <= hi)%Q) ->
  (lo <= score' word ref <= hi)%Q.
Proof.
  intros Ew Er H. rewrite (score_mean _ G word ref t ts first rest Ew Er).
  rewrite <- (List.length_map (token_penalty G first) (t :: ts)).
  apply (mean_bounds lo hi (token_penalty G first t) (map (token_penalty G first) ts)).
  change (Forall (fun y => (lo <= y <= hi)%Q) (map (token_penalty G first) (t :: ts))).
  apply List.Forall_forall. intros q Hq. apply in_map_iff in Hq as (x & <- & Hx).
  now apply H.
Qed.

End ScoreShape.

Lemma score_nonneg_helper
    (word_tokenize : string -> option (list string)) (G : globals)
    (word ref : string) :
  (0 <= calculate_word_dyslexia_score word_tokenize G word ref)%Q.
Proof.
  destruct (score_cases word_tokenize G word ref)
    as [[_ ->] | (t & ts & first & rest & Ew & Er & _)]; [lra|].
  pose proof (of_count_nonneg (length (letter_confusions G))).
  pose proof (of_count_nonneg (length (word_confusions G))).
  apply (score_in_range word_tokenize G 0 (penalty_cap G) _ _ _ _ _ _ Ew Er).
  intros x _. split; [apply token_penalty_nonneg | apply token_penalty_le_cap].
Qed.

(** X5. No score exceeds the largest penalty one token can collect: 3.0
    for an unknown word, 3.0 per letter pair, 4.0 per word group and 3.0
    for the reversal.  With the tables of the server this cap is 162. *)
Theorem score_never_exceeds_cap
    (word_tokenize : string -> option (list string)) (G : globals)
    (word reference_sentence : string) :
  (calculate_word_dyslexia_score word_tokenize G word reference_sentence
   <= 3 + 3 * of_count (length (letter_confusions G))
      + 4 * of_count (length (word_confusions G)) + 3)%Q
  /\ (forall vocab : gset string,
      (calculate_word_dyslexia_score word_tokenize (boot vocab) word reference_sentence
       <= 162)%Q).
Proof.
  assert (Hcap : forall G', (calculate_word_dyslexia_score word_tokenize G'
                               word reference_sentence <= penalty_cap G')%Q).
  { intros G'.
    assert (H0 : (0 <= penalty_cap G')%Q).
    { unfold penalty_cap.
      pose proof (of_count_nonneg (length (letter_confusions G'))).
      pose proof (of_count_nonneg (length (word_confusions G'))). lra. }
    destruct (score_cases word_tokenize G' word reference_sentence)
      as [[_ ->] | (t & ts & first & rest & Ew & Er & _)]; [exact H0|].
    apply (score_in_range word_tokenize G' 0 (penalty_cap G') _ _ _ _ _ _ Ew Er).
    intros x _. split; [apply token_penalty_nonneg | apply token_penalty_le_cap]. }
  split; [apply Hcap|].
  intros vocab. apply (Qle_trans _ _ _ (Hcap (boot vocab))).
  unfold penalty_cap. cbn. unfold Qle. cbn. lia.
Qed.

(** X6. A response none of whose tokens is in the vocabulary scores at
    least 3.0 against any reference that has a token; this is the case of
    every response when the vocabulary failed to load and is empty. *)
Theorem unknown_words_score_at_least_3
    (word_tokenize : string -> option (list string)) (G : globals)
    (word reference_sentence : string) :
  tokenize_and_clean_text word_tokenize word <> [] ->
  tokenize_and_clean_text word_tokenize reference_sentence <> [] ->
  (forall t, In t (tokenize_and_clean_text word_tokenize word) ->
             t ∉ english_vocab G) ->
  (3 <= calculate_word_dyslexia_score word_tokenize G word reference_sentence)%Q.
Proof.
  intros Hw Hr Hout.
  destruct (score_cases word_tokenize G word reference_sentence)
    as [[[E | E] _] | (t & ts & first & rest & Ew & Er & _)]; [contradiction..|].
  rewrite Ew in Hout.
  apply (score_in_range word_tokenize G 3 (penalty_cap G) _ _ _ _ _ _ Ew Er).
  intros x Hx.
  split; [apply token_penalty_unknown, Hout, Hx | apply token_penalty_le_cap].
Qed.

Lemma unknown_words_score_at_least_3_witness :
  (3 <= calculate_word_dyslexia_score word_tokenize_unavailable (boot ∅)
          "the cat sat" "The cat sat.")%Q.
Proof.
  apply unknown_words_score_at_least_3; [discriminate | discriminate|].
  intros t _. apply not_elem_of_empty.
Defined.

(** X7. A larger vocabulary never raises a score: with the same tables,
    if every word known to [G] is known to [G'], the score under [G'] is
    at most the score under [G]. *)
Theorem larger_vocabulary_lowers_score
    (word_tokenize : string -> option (list string)) (G G' : globals)
    (word reference_sentence : string) :
  english_vocab G ⊆ english_vocab G' ->
  letter_confusions G' = letter_confusions G ->
  word_confusions G' = word_confusions G ->
  (calculate_word_dyslexia_score word_tokenize G' word reference_sentence
   <= calculate_word_dyslexia_score word_tokenize G word reference_sentence)%Q.
Proof.
  intros Hsub Hl Hw.
  assert (Htok : forall first t, (token_penalty G' first t <= token_penalty G first t)%Q).
  { intros first t. rewrite !token_penalty_sum, !score_before_reversal_sum, Hl, Hw.
    unfold unknown_penalty.
    destruct (decide (t ∈ english_vocab G)) as [Hin|Hout];
      destruct (decide (t ∈ english_vocab G')) as [Hin'|Hout']; try lra.
    exfalso. apply Hout'. now apply Hsub. }
  destruct (score_cases word_tokenize G word reference_sentence)
    as [[Hempty E] | (t & ts & first & rest & Ew & Er & E)]; rewrite E.
  - rewrite score_guard by exact Hempty. lra.
  - rewrite (score_mean _ G' _ _ _ _ _ _ Ew Er). cbn [length].
    apply div_le_div, sum_le, pointwise_le, Htok.
Qed.

Lemma larger_vocabulary_lowers_score_witness :
  (calculate_word_dyslexia_score word_tokenize_unavailable (boot {["cat"]})
     "cat tac" "The cat sat."
   <= calculate_word_dyslexia_score word_tokenize_unavailable (boot ∅)
        "cat tac" "The cat sat.")%Q.
Proof.
  apply larger_vocabulary_lowers_score; [|reflexivity..].
  cbn [boot english_vocab]. apply empty_subseteq.
Defined.

(** X8. The order of the words of the response does not matter: two
    responses whose token lists are permutations of each other get the
    same score against every reference. *)
Theorem score_ignores_token_order
    (word_tokenize : string -> option (list string)) (G : globals)
    (word word2 reference_sentence : string) :
  Permutation (tokenize_and_clean_text word_tokenize word)
              (tokenize_and_clean_text word_tokenize word2) ->
  (calculate_word_dyslexia_score word_tokenize G word reference_sentence
   == calculate_word_dyslexia_score word_tokenize G word2 reference_sentence)%Q.
Proof.
  intros Hperm.
  destruct (score_cases word_tokenize G word reference_sentence)
    as [[[Ew | Er] E] | (t & ts & first & rest & Ew & Er & E)]; rewrite E.
  - rewrite Ew in Hperm. apply Permutation_nil in Hperm.
    rewrite score_guard by now left. reflexivity.
  - rewrite score_guard by now right. reflexivity.
  - destruct (tokenize_and_clean_text word_tokenize word2) as [|t2 ts2] eqn:Ew2.
    { rewrite Ew in Hperm. apply Permutation_sym, Permutation_nil in Hperm. discriminate. }
    rewrite (score_mean _ G _ _ _ _ _ _ Ew2 Er). rewrite Ew in Hperm.
    rewrite (sum_permutation _ _ (Permutation_map (token_penalty G first) Hperm)).
    now rewrite (Permutation_length Hperm).
Qed.

Lemma score_ignores_token_order_witness :
  (calculate_word_dyslexia_score word_tokenize_unavailable (boot ∅)
     "teh cat" "The cat sat."
   == calculate_word_dyslexia_score word_tokenize_unavailable (boot ∅)
        "cat teh" "The cat sat.")%Q.
Proof.
  apply score_ignores_token_order. apply perm_swap.
Defined.

(** X9. Of the reference sentence the scorer uses only whether it has a
    token and which token comes first: two references with the same first
    token give every response the same score. *)
Theorem score_uses_only_first_reference_token
    (word_tokenize : string -> option (list string)) (G : globals)
    (word ref ref2 first : string) (rest rest2 : list string) :
  tokenize_and_clean_text word_tokenize ref = first :: rest ->
  tokenize_and_clean_text word_tokenize ref2 = first :: rest2 ->
  calculate_word_dyslexia_score word_tokenize G word ref
  = calculate_word_dyslexia_score word_tokenize G word ref2.
Proof.
  intros Er Er2.
  destruct (tokenize_and_clean_text word_tokenize word) as [|t ts] eqn:Ew.
  - rewrite !score_guard by now left. reflexivity.
  - rewrite (score_mean _ G _ _ _ _ _ _ Ew Er), (score_mean _ G _ _ _ _ _ _ Ew Er2).
    reflexivity.
Qed.

Lemma score_uses_only_first_reference_token_witness :
  calculate_word_dyslexia_score word_tokenize_unavailable (boot ∅)
    "tac" "cat sat on mat"
  = calculate_word_dyslexia_score word_tokenize_unavailable (boot ∅)
      "tac" "cat and dog".
Proof.
  apply (score_uses_only_first_reference_token word_tokenize_unavailable (boot ∅)
           "tac" "cat sat on mat" "cat and dog" "cat" ["sat"; "on"; "mat"]
           ["and"; "dog"]); reflexivity.
Defined.

(** X10. Past the guard, the score is 0 exactly for a clean response:
    every token is in the vocabulary, contains no confusable letter pair,
    belongs to no confusable word group and is not the reverse of the
    first reference token. *)
Theorem score_zero_iff_clean
    (word_tokenize : string -> option (list string)) (G : globals)
    (word reference_sentence first : string) (rest : list string) :
  tokenize_and_clean_text word_tokenize word <> [] ->
  tokenize_and_clean_text word_tokenize reference_sentence = first :: rest ->
  (calculate_word_dyslexia_score word_tokenize G word reference_sentence == 0)%Q
  <-> (forall t, In t (tokenize_and_clean_text word_tokenize word) ->
         t ∈ english_vocab G
         /\ pairs_hit (letter_confusions G) t = []
         /\ groups_hit (word_confusions G) t = []
         /\ Py.reversed t <> first).
Proof.
  intros Hw Er.
  destruct (tokenize_and_clean_text word_tokenize word) as [|t ts] eqn:Ew;
    [contradiction|].
  rewrite (score_mean _ G _ _ _ _ _ _ Ew Er).
  pose proof (of_count_pos (length ts)) as Hpos. cbn [length].
  assert (Hdiv : forall s : Q, (s / of_count (S (length ts)) == 0)%Q <-> (s == 0)%Q).
  { intros s. split; intros E.
    - assert (E' : (s == (s / of_count (S (length ts))) * of_count (S (length ts)))%Q)
        by (field; lra).
      rewrite E' , E. lra.
    - rewrite E. field. lra. }
  rewrite Hdiv, (sum_zero_iff _ (penalties_nonneg G first (t :: ts))).
  rewrite List.Forall_forall. split.
  - intros H x Hx. apply (token_penalty_zero_iff G first x), H, in_map, Hx.
  - intros H q Hq. apply in_map_iff in Hq as (x & <- & Hx).
    apply token_penalty_zero_iff, H, Hx.
Qed.

Lemma score_zero_iff_clean_witness :
  (calculate_word_dyslexia_score word_tokenize_unavailable (boot {["dog"]})
     "dog dog" "The dog." == 0)%Q.
Proof.
  apply (score_zero_iff_clean word_tokenize_unavailable (boot {["dog"]})
           "dog dog" "The dog." "the" ["dog."]); [discriminate | reflexivity|].
  intros t Ht. cbn in Ht. destruct Ht as [<- | [<- | []]];
    (split; [cbn [boot english_vocab]; now apply elem_of_singleton|]);
    (split; [reflexivity|]); (split; [reflexivity|]);
    intros E; vm_compute in E; discriminate.
Defined.

(** ** Further properties of the aggregator and the routes *)

Lemma mean_ge (lo : Q) (x : Q) (xs : list Q) :
  Forall (fun y => (lo <= y)%Q) (x :: xs) ->
  (lo <= Py.sum (x :: xs) / of_count (length (x :: xs)))%Q.
Proof.
  intros H. pose proof (of_count_pos (length xs)) as Hpos.
  apply Qle_shift_div_l; [exact Hpos|].
  assert (Hsum : forall l, Forall (fun y => (lo <= y)%Q) l ->
                           (of_count (length l) * lo <= Py.sum l)%Q).
  { induction 1 as [|y l Hy _ IH].
    - change (Py.sum []) with 0%Q. cbn [length]. change (of_count 0) with 0%Q. lra.
    - rewrite sum_cons. cbn [length]. rewrite of_count_S. lra. }
  specialize (Hsum _ H). lra.
Qed.

Lemma mean_le (hi : Q) (x : Q) (xs : list Q) :
  Forall (fun y => (y <= hi)%Q) (x :: xs) ->
  (Py.sum (x :: xs) / of_count (length (x :: xs)) <= hi)%Q.
Proof.
  intros H. pose proof (of_count_pos (length xs)) as Hpos.
  apply Qle_shift_div_r; [exact Hpos|].
  assert (Hsum : forall l, Forall (fun y => (y <= hi)%Q) l ->
                           (Py.sum l <= of_count (length l) * hi)%Q).
  { induction 1 as [|y l Hy _ IH].
    - change (Py.sum []) with 0%Q. cbn [length]. change (of_count 0) with 0%Q. lra.
    - rewrite sum_cons. cbn [length]. rewrite of_count_S. lra. }
  specialize (Hsum _ H). lra.
Qed.

(** X11. A unanimous session decides the verdict: when every score is at
    least 3.5 the verdict is the positive one, and when every score is at
    most 3.0 it is the negative one. *)
Theorem unanimous_scores_decide_verdict
    (responses : list string) (scores : list Q) :
  responses <> [] -> scores <> [] ->
  exists avg_score verdict,
    aggregate responses scores = inr (Aggregated avg_score verdict)
    /\ (Forall (fun s => (3.5 <= s)%Q) scores -> verdict = VERDICT_POSITIVE)
    /\ (Forall (fun s => (s <= 3.0)%Q) scores -> verdict = VERDICT_NEGATIVE).
Proof.
  intros Hr Hs. exists (mean scores), (verdict_of (mean scores)).
  split; [now apply aggregate_sufficient|].
  destruct scores as [|x xs]; [contradiction|]. unfold mean. split.
  - intros H. apply verdict_positive_iff. unfold DYSLEXIA_SCORE_THRESHOLD.
    now apply mean_ge.
  - intros H. apply verdict_negative_iff. unfold DYSLEXIA_SCORE_THRESHOLD.
    apply (Qle_lt_trans _ 3.0); [now apply mean_le | reflexivity].
Qed.

Lemma unanimous_scores_decide_verdict_witness :
  exists avg_score verdict,
    aggregate ["teh cat"; "the cat"] [4.0; 6.0]%Q = inr (Aggregated avg_score verdict)
    /\ (Forall (fun s => (3.5 <= s)%Q) [4.0; 6.0]%Q -> verdict = VERDICT_POSITIVE)
    /\ (Forall (fun s => (s <= 3.0)%Q) [4.0; 6.0]%Q -> verdict = VERDICT_NEGATIVE).
Proof.
  apply (unanimous_scores_decide_verdict ["teh cat"; "the cat"] [4.0; 6.0]%Q);
    discriminate.
Defined.

Lemma field_cases (field : option json_value) :
  field = Some JOther
  \/ exists text : string,
       strip_value (get field (JString "")) = inr text
       /\ field <> Some JOther
       /\ (field = None -> text = "").
Proof.
  destruct field as [[text|]|].
  - right. exists (Py.strip text). repeat split; discriminate.
  - now left.
  - right. exists "". repeat split; discriminate.
Qed.

(** X13. [analyze_response] answers with status 500 exactly when the
    body of the request is not a JSON object, or is one whose [userText]
    or [sentence] is present and is not a string; the body of the answer
    is then [{"error": "Error processing response"}].  Every other request
    is answered with status 200, and a JSON object that lacks one of the
    two keys gets [{"error": "Invalid input"}]. *)
Theorem analyze_response_statuses
    (word_tokenize : string -> option (list string)) (G : globals)
    (document : json_document) :
  let answer := analyze_response_route word_tokenize G document in
  (status answer = 500%nat
   <-> document = JNotObject
       \/ exists data, document = JObject data
                       /\ (userText data = Some JOther \/ sentence data = Some JOther))
  /\ (status answer = 500%nat -> body answer = ErrorBody "Error processing response")
  /\ (status answer = 200%nat \/ status answer = 500%nat)
  /\ (forall data, document = JObject data ->
        userText data = None \/ sentence data = None ->
        status answer = 200%nat -> body answer = ErrorBody "Invalid input").
Proof.
  destruct document as [data|]; cbn [analyze_response_route].
  2:{ cbn [jsonify_status status body].
      split; [split; [now left | reflexivity]|].
      split; [reflexivity|]. split; [now right | discriminate]. }
  destruct (field_cases (userText data)) as [Hu | (u & Hu & Hu1 & Hu0)].
  { rewrite (analyze_response_not_a_string _ _ _ (or_introl Hu)). cbn [status body].
    split; [split; [intros _; right; exists data; auto | reflexivity]|].
    split; [reflexivity|]. split; [now right | discriminate]. }
  destruct (field_cases (sentence data)) as [Hs | (r & Hs & Hs1 & Hs0)].
  { rewrite (analyze_response_not_a_string _ _ _ (or_intror Hs)). cbn [status body].
    split; [split; [intros _; right; exists data; auto | reflexivity]|].
    split; [reflexivity|]. split; [now right | discriminate]. }
  rewrite (analyze_response_texts _ _ _ _ _ Hu Hs).
  assert (Hst : forall c (a b : json_body),
             status (if c : bool then jsonify a else jsonify b) = 200%nat)
    by (intros [] a b; reflexivity).
  rewrite Hst. split; [|split; [discriminate | split; [now left|]]].
  - split; [discriminate|].
    intros [H | (data' & [= <-] & [H | H])]; [discriminate | contradiction..].
  - intros data' [= <-] [H | H] _; [rewrite (Hu0 H) | rewrite (Hs0 H)];
      rewrite ?orb_true_r; reflexivity.
Qed.

Lemma analyze_response_statuses_witness :
  analyze_response_route word_tokenize_unavailable (boot ∅)
    (JObject {| userText := Some (JString "tac"); sentence := None |})
  = {| status := 200; body := ErrorBody "Invalid input" |}
  /\ status (analyze_response_route word_tokenize_unavailable (boot ∅) JNotObject)
     = 500%nat.
Proof.
  split; [reflexivity|].
  apply (analyze_response_statuses word_tokenize_unavailable (boot ∅) JNotObject).
  now left.
Defined.

(** ** The report renderer *)

Section RendererFacts.

Variable env : pdf_env.

Lemma draw_attempts_app (c : list canvas_op) (y : Q) (i : nat)
    (attempts : list (string * Q)) :
  draw_attempts env c y i attempts
  = (c ++ fst (draw_attempts env [] y i attempts),
     snd (draw_attempts env [] y i attempts)).
Proof.
  revert c y i. induction attempts as [|[r s] rest IH]; intros c y i.
  - cbn. now rewrite app_nil_r.
  - cbn [draw_attempts]. unfold setFont, drawString.
    rewrite IH. rewrite (IH (((([] ++ _) ++ _) ++ _) ++ _)).
    cbn [fst snd app]. now rewrite <- !app_assoc.
Qed.

Lemma draw_attempts_cons (y : Q) (i : nat) (r : string) (s : Q)
    (rest : list (string * Q)) :
  draw_attempts env [] y i ((r, s) :: rest)
  = ([ SetFont "Helvetica" 12;
       DrawString 50 y ("Attempt " +:+ pretty i +:+ ":");
       DrawString 70 (y - 20) ("Response: " +:+ r);
       DrawString 70 (y - 40) ("Score: " +:+ format_3f env s) ]
     ++ fst (draw_attempts env [] (y - 70) (S i) rest),
     snd (draw_attempts env [] (y - 70) (S i) rest)).
Proof.
  cbn [draw_attempts]. unfold setFont, drawString. now rewrite draw_attempts_app.
Qed.

Lemma pdf_avg_score_total (scores : list Q) :
  pdf_avg_score scores
  = inr (match scores with [] => 0%Q | _ => mean scores end).
Proof. destruct scores; reflexivity. Qed.

(** The [try] block, with the canvas in three parts. *)
Lemma generate_pdf_report_try_shape (user : user_data) (responses : list string)
    (scores : list Q) :
  generate_pdf_report_try env user responses scores
  = let attempts := combine responses scores in
    let y_position := snd (draw_attempts env [] (page_height env - 220) 1 attempts) in
    let avg_score := match scores with [] => 0%Q | _ => mean scores end in
    if save_ok env (pdf_filename env user)
    then inr (pdf_filename env user,
              header_ops env user
              ++ fst (draw_attempts env [] (page_height env - 220) 1 attempts)
              ++ footer_ops env y_position avg_score)
    else inl OSError.
Proof.
  unfold generate_pdf_report_try. unfold setFont at 1 2 3 4, drawString at 1 2 3 4 5 6.
  cbn [app]. rewrite draw_attempts_app, pdf_avg_score_total.
  fold (header_ops env user). cbn zeta.
  destruct (save_ok env (pdf_filename env user)); [|reflexivity].
  unfold setFont, drawString, footer_ops. now rewrite <- !app_assoc.
Qed.

Lemma attempts_texts_length (y : Q) (i : nat) (attempts : list (string * Q)) :
  length (texts (fst (draw_attempts env [] y i attempts))) = (3 * length attempts)%nat.
Proof.
  revert y i. induction attempts as [|[r s] rest IH]; intros y i; [reflexivity|].
  rewrite draw_attempts_cons. cbn [fst]. unfold texts in *. rewrite omap_app.
  rewrite length_app, IH. cbn. lia.
Qed.

Lemma attempts_texts_lookup (y : Q) (i k : nat) (attempts : list (string * Q))
    (r : string) (s : Q) :
  attempts !! k = Some (r, s) ->
  let listing := texts (fst (draw_attempts env [] y i attempts)) in
  listing !! (3 * k)%nat = Some ("Attempt " +:+ pretty (i + k)%nat +:+ ":")
  /\ listing !! (3 * k + 1)%nat = Some ("Response: " +:+ r)
  /\ listing !! (3 * k + 2)%nat = Some ("Score: " +:+ format_3f env s).
Proof.
  revert y i k. induction attempts as [|[r0 s0] rest IH]; intros y i k Hk; [discriminate|].
  cbn zeta. rewrite draw_attempts_cons. cbn [fst]. unfold texts. rewrite omap_app.
  destruct k as [|k].
  - injection Hk as -> ->. rewrite Nat.add_0_r. repeat split.
  - cbn [lookup list_lookup] in Hk. specialize (IH (y - 70)%Q (S i) k Hk).
    cbn zeta in IH. unfold texts in IH. destruct IH as (H1 & H2 & H3).
    replace (i + S k)%nat with (S i + k)%nat by lia.
    replace (3 * S k)%nat with (3 + 3 * k)%nat by lia.
    repeat split; [exact H1 | exact H2 | exact H3].
Qed.

Lemma attempts_height (y : Q) (i : nat) (attempts : list (string * Q)) :
  (snd (draw_attempts env [] y i attempts) == y - 70 * of_count (length attempts))%Q
  /\ Forall (fun h => (y - 70 * of_count (length attempts) + 30 <= h)%Q)
       (heights (fst (draw_attempts env [] y i attempts))).
Proof.
  revert y i. induction attempts as [|[r s] rest IH]; intros y i.
  - cbn. change (of_count 0) with 0%Q. split; [lra | constructor].
  - rewrite draw_attempts_cons. cbn [fst snd length].
    pose proof (of_count_S (length rest)) as HS.
    destruct (IH (y - 70)%Q (S i)) as [Hy Hall].
    pose proof (of_count_nonneg (length rest)) as Hn. split; [rewrite Hy; lra|].
    unfold heights in *. rewrite omap_app. apply Forall_app. split.
    + apply List.Forall_forall. intros h Hh. cbn in Hh.
      destruct Hh as [<- | [<- | [<- | []]]]; lra.
    + revert Hall. apply List.Forall_impl. intros h Hh. lra.
Qed.

End RendererFacts.

Lemma generate_pdf_report_cases (env : pdf_env) (user : user_data)
    (responses : list string) (scores : list Q) :
  generate_pdf_report env user responses scores
  = if save_ok env (pdf_filename env user)
    then Some (pdf_filename env user) else None.
Proof.
  unfold generate_pdf_report. rewrite generate_pdf_report_try_shape. cbn zeta.
  destruct (save_ok env (pdf_filename env user)); reflexivity.
Qed.



(** X15. The report agrees with the answer of the route: when
    [generate_final_report] answers with an average, a verdict and a
    path, the PDF was saved under that path and its last three lines are
    "Final Assessment", the same average and the same verdict. *)
Theorem report_matches_answer
    (env : pdf_env) (data : report_request)
    (avg_score : Q) (verdict pdf_path : string) :
  generate_final_report (generate_pdf_report env) data
  = jsonify (ReportBody avg_score verdict pdf_path) ->
  exists (canvas : list canvas_op) (before : list string),
    generate_pdf_report_try env
      {| name := get (userName data) "Unknown"; id := get (userId data) "Unknown" |}
      (get (responses data) []) (get (scores data) [])
    = inr (pdf_path, canvas)
    /\ texts canvas
       = (before ++ [ "Final Assessment";
                      "Average Score: " +:+ format_3f env avg_score;
                      "Verdict: " +:+ verdict ])%list.
Proof.
  unfold generate_final_report.
  set (user := {| name := get (userName data) "Unknown";
                  id := get (userId data) "Unknown" |}).
  destruct (get (responses data) []) as [|r rs] eqn:Er.
  { rewrite aggregate_insufficient by now left. discriminate. }
  destruct (get (scores data) []) as [|x xs] eqn:Es.
  { rewrite aggregate_insufficient by now right. discriminate. }
  rewrite aggregate_sufficient by discriminate.
  rewrite generate_pdf_report_cases, generate_pdf_report_try_shape. cbn zeta.
  destruct (save_ok env (pdf_filename env user)); [|discriminate].
  intros [= <- <- <-].
  eexists. eexists. split; [reflexivity|].
  unfold texts. rewrite !omap_app. rewrite app_assoc. reflexivity.
Qed.

Lemma report_matches_answer_witness :
  exists (canvas : list canvas_op) (before : list string),
    generate_pdf_report_try sample_env {| name := "Ann"; id := "7" |}
      ["teh cat"; "the cat"; "the cta"; "the cat"] [3.0; 0; 3.0; 0]%Q
    = inr ("static/reports/dyslexia_report_Ann_20260101_120000.pdf", canvas)
    /\ texts canvas
       = (before ++ [ "Final Assessment";
                      "Average Score: "
                      +:+ format_3f sample_env (mean [3.0; 0; 3.0; 0]%Q);
                      "Verdict: " +:+ VERDICT_NEGATIVE ])%list.
Proof.
  apply (report_matches_answer sample_env four_attempts). reflexivity.
Defined.

(** X16. The report lists the attempts that have both a response and a
    score, numbered from 1 and in order: the PDF has 9 lines of text plus
    3 per listed attempt, the smaller of the two list lengths, and the
    lines of attempt [k + 1] show [responses[k]] and [scores[k]].  A
    response without a score, or a score without a response, is not
    listed. *)
Theorem report_lists_paired_attempts
    (env : pdf_env) (user : user_data) (responses : list string) (scores : list Q)
    (filename : string) (canvas : list canvas_op) :
  generate_pdf_report_try env user responses scores = inr (filename, canvas) ->
  length (texts canvas)
  = (9 + 3 * Nat.min (length responses) (length scores))%nat
  /\ (forall (k : nat) (response : string) (score : Q),
        responses !! k = Some response -> scores !! k = Some score ->
        texts canvas !! (6 + 3 * k)%nat
        = Some ("Attempt " +:+ pretty (S k) +:+ ":")
        /\ texts canvas !! (7 + 3 * k)%nat = Some ("Response: " +:+ response)
        /\ texts canvas !! (8 + 3 * k)%nat
           = Some ("Score: " +:+ format_3f env score)).
Proof.
  rewrite generate_pdf_report_try_shape. cbn zeta.
  destruct (save_ok env (pdf_filename env user)); [|discriminate].
  intros H.
  assert (Hc : canvas
               = (header_ops env user
                  ++ fst (draw_attempts env [] (page_height env - 220) 1
                            (combine responses scores))
                  ++ footer_ops env
                       (snd (draw_attempts env [] (page_height env - 220) 1
                               (combine responses scores)))
                       (match scores with [] => 0%Q | _ => mean scores end))%list)
    by congruence.
  clear H. subst canvas. unfold texts. rewrite !omap_app.
  fold (texts (fst (draw_attempts env [] (page_height env - 220) 1
                      (combine responses scores)))).
  split.
  - rewrite !length_app, attempts_texts_length, length_combine. cbn. lia.
  - intros k response score Hr Hs.
    assert (Hk : combine responses scores !! k = Some (response, score)).
    { clear -Hr Hs. revert k scores Hr Hs.
      induction responses as [|r rs IH]; intros k scores Hr Hs; [discriminate|].
      destruct scores as [|s ss]; [discriminate|].
      destruct k as [|k]; cbn in *; [congruence | now apply IH]. }
    destruct (attempts_texts_lookup env (page_height env - 220) 1 k _ _ _ Hk)
      as (H1 & H2 & H3).
    assert (Hlen : length (texts (header_ops env user)) = 6%nat) by reflexivity.
    assert (Hlt : (3 * k + 2 < length (texts (fst (draw_attempts env []
                      (page_height env - 220) 1 (combine responses scores)))))%nat).
    { apply lookup_lt_is_Some. eauto. }
    fold (texts (header_ops env user)).
    rewrite !(lookup_app_r (texts (header_ops env user))) by (rewrite Hlen; lia).
    rewrite Hlen.
    replace (6 + 3 * k - 6)%nat with (3 * k)%nat by lia.
    replace (7 + 3 * k - 6)%nat with (3 * k + 1)%nat by lia.
    replace (8 + 3 * k - 6)%nat with (3 * k + 2)%nat by lia.
    rewrite !lookup_app_l by lia. auto.
Qed.

Lemma report_lists_paired_attempts_witness :
  exists canvas,
    generate_pdf_report_try sample_env ann ["teh cat"; "the cat"; "the cta"] [3.0; 0]%Q
    = inr ("static/reports/dyslexia_report_Ann_20260101_120000.pdf", canvas)
    /\ length (texts canvas) = 15%nat
    /\ texts canvas !! 10%nat = Some "Response: the cat".
Proof.
  eexists. split; [reflexivity|].
  destruct (report_lists_paired_attempts sample_env ann
              ["teh cat"; "the cat"; "the cta"] [3.0; 0]%Q _ _ eq_refl) as [Hlen Hk].
  split; [exact Hlen|].
  destruct (Hk 1%nat "the cat" 0%Q eq_refl eq_refl) as (_ & H & _). exact H.
Defined.

Lemma seventy_times_count (n : nat) :
  (70 * of_count n <= 512)%Q <-> (n <= 7)%nat.
Proof.
  unfold of_count. change 70%Q with (inject_Z 70). change 512%Q with (inject_Z 512).
  rewrite <- inject_Z_mult, <- Zle_Qle. lia.
Qed.

(** X17. The verdict is the lowest line of the report, at height
    [page_height - 280 - 70 n] for [n] listed attempts.  On the letter
    page of height 792 it stays on the page exactly for up to 7 attempts;
    a longer session, which the server accepts, pushes it below the
    bottom edge. *)
Theorem report_fits_page_up_to_seven_attempts
    (env : pdf_env) (user : user_data) (responses : list string) (scores : list Q)
    (filename : string) (canvas : list canvas_op) :
  generate_pdf_report_try env user responses scores = inr (filename, canvas) ->
  exists y_verdict : Q,
    last (heights canvas) = Some y_verdict
    /\ (y_verdict
        == page_height env - 280
           - 70 * of_count (Nat.min (length responses) (length scores)))%Q
    /\ Forall (fun h => (y_verdict <= h)%Q) (heights canvas)
    /\ ((page_height env == 792)%Q ->
        ((0 <= y_verdict)%Q
         <-> (Nat.min (length responses) (length scores) <= 7)%nat)).
Proof.
  rewrite generate_pdf_report_try_shape. cbn zeta.
  destruct (save_ok env (pdf_filename env user)); [|discriminate].
  intros H.
  set (attempts := combine responses scores) in *.
  set (avg := match scores with [] => 0%Q | _ => mean scores end) in *.
  destruct (attempts_height env (page_height env - 220) 1 attempts) as [Hy Hall].
  set (drawn := fst (draw_attempts env [] (page_height env - 220) 1 attempts)) in *.
  set (y := snd (draw_attempts env [] (page_height env - 220) 1 attempts)) in *.
  assert (Hc : canvas = (header_ops env user ++ drawn ++ footer_ops env y avg)%list)
    by congruence.
  clear H. subst canvas.
  assert (Hn : length attempts = Nat.min (length responses) (length scores))
    by apply length_combine.
  rewrite Hn in Hy, Hall.
  pose proof (of_count_nonneg (Nat.min (length responses) (length scores))) as Hpos.
  exists (y - 60)%Q. unfold heights in *. rewrite !omap_app.
  split; [|split; [|split]].
  - rewrite !last_app. reflexivity.
  - rewrite Hy. lra.
  - apply Forall_app. split; [|apply Forall_app; split].
    + apply List.Forall_forall. intros h Hh. cbn in Hh.
      destruct Hh as [<- | [<- | [<- | [<- | [<- | [<- | []]]]]]]; lra.
    + revert Hall. apply List.Forall_impl. intros h Hh. lra.
    + apply List.Forall_forall. intros h Hh. cbn in Hh.
      destruct Hh as [<- | [<- | [<- | []]]]; lra.
  - intros Hpage. rewrite <- seventy_times_count. rewrite Hy, Hpage. split; intros; lra.
Qed.

Lemma report_fits_page_up_to_seven_attempts_witness :
  exists (canvas : list canvas_op) (y_verdict : Q),
    generate_pdf_report_try sample_env ann
      ["a"; "b"; "c"; "d"; "e"; "f"; "g"; "h"] [0; 0; 0; 0; 0; 0; 0; 0]%Q
    = inr ("static/reports/dyslexia_report_Ann_20260101_120000.pdf", canvas)
    /\ last (heights canvas) = Some y_verdict
    /\ (y_verdict == -48)%Q.
Proof.
  eexists.
  destruct (report_fits_page_up_to_seven_attempts sample_env ann
              ["a"; "b"; "c"; "d"; "e"; "f"; "g"; "h"] [0; 0; 0; 0; 0; 0; 0; 0]%Q
              _ _ eq_refl) as (y & Hlast & Hy & _).
  exists y. split; [reflexivity | split; [exact Hlast|]].
  rewrite Hy. reflexivity.
Defined.

(** ** The sentence provider *)

Lemma served_sentences_not_blank (s : string) :
  In s TEST_SENTENCES -> Py.str_falsy (Py.strip s) = false.
Proof.
  intros H. repeat (destruct H as [<- | H]; [reflexivity|]). destruct H.
Qed.

(** X18. For every number drawn below the length of the corpus,
    [get_sentence] answers with status 200 and the sentence at that place
    of the ten-sentence corpus, never with its error; every sentence of
    the corpus is served by some draw; and a served sentence is always
    accepted as reference by [analyze_response], which then answers
    "Invalid input" exactly when the user's text is blank. *)
Theorem get_sentence_serves_corpus (draw : nat) :
  (draw < length TEST_SENTENCES)%nat ->
  length TEST_SENTENCES = 10%nat
  /\ (forall s, In s TEST_SENTENCES ->
        exists k, (k < 10)%nat
                  /\ get_sentence k
                     = {| sentence_status := 200; sentence_json := SentenceBody s |})
  /\ exists s : string,
       TEST_SENTENCES !! draw = Some s
       /\ get_sentence draw
          = {| sentence_status := 200; sentence_json := SentenceBody s |}
       /\ (forall (word_tokenize : string -> option (list string)) (G : globals)
                  (user_text : string),
             analyze_response word_tokenize G
               {| userText := Some (JString user_text);
                  sentence := Some (JString s) |}
             = {| status := 200; body := ErrorBody "Invalid input" |}
             <-> Py.strip user_text = "").
Proof.
  intros Hdraw. split; [reflexivity|]. split.
  - intros s Hs. apply In_nth_error in Hs as [k Hk].
    assert (Hlt : (k < 10)%nat).
    { change 10%nat with (length TEST_SENTENCES). apply nth_error_Some. congruence. }
    exists k. split; [exact Hlt|].
    do 10 (destruct k as [|k]; [cbn in Hk; injection Hk as <-; reflexivity|]). lia.
  - destruct (TEST_SENTENCES !! draw) as [s|] eqn:Es.
    2:{ apply lookup_ge_None in Es. lia. }
    exists s. split; [reflexivity|]. split.
    + unfold get_sentence, random_choice. rewrite Es. reflexivity.
    + intros word_tokenize G user_text.
      assert (Hs : Py.str_falsy (Py.strip s) = false).
      { apply served_sentences_not_blank, list_elem_of_In, list_elem_of_lookup. eauto. }
      rewrite (analyze_response_texts word_tokenize G
                 {| userText := Some (JString user_text); sentence := Some (JString s) |}
                 (Py.strip user_text) (Py.strip s) eq_refl eq_refl).
      rewrite Hs, orb_false_r.
      destruct (Py.strip user_text); cbn [Py.str_falsy]; split;
        try reflexivity; discriminate.
Qed.

Lemma get_sentence_serves_corpus_witness :
  get_sentence 3
  = {| sentence_status := 200;
       sentence_json := SentenceBody "Pack my box with five dozen liquor jugs." |}.
Proof.
  assert (H : (3 < length TEST_SENTENCES)%nat) by (cbn; lia).
  destruct (get_sentence_serves_corpus 3 H) as (_ & _ & s & Hs & Hget & _).
  cbn in Hs. injection Hs as <-. exact Hget.
Defined.

(** ** The degraded server and the letter check *)

(** X19. When both NLTK resources are missing (the tokenizer raises and
    the vocabulary is empty), every request that passes the validation of
    [analyze_response] is answered with a score of at least 3.0: each
    token counts as an unknown word. *)
Theorem degraded_server_scores_at_least_3
    (G : globals) (user_text reference_sentence : string) :
  english_vocab G = ∅ ->
  Py.strip user_text <> "" ->
  Py.strip reference_sentence <> "" ->
  exists score : Q,
    analyze_response word_tokenize_unavailable G
      {| userText := Some (JString user_text);
         sentence := Some (JString reference_sentence) |}
    = {| status := 200; body := ScoreBody score true |}
    /\ (3 <= score)%Q.
Proof.
  intros Hvocab Hu Hr.
  rewrite (analyze_response_texts word_tokenize_unavailable G
             {| userText := Some (JString user_text);
                sentence := Some (JString reference_sentence) |}
             (Py.strip user_text) (Py.strip reference_sentence) eq_refl eq_refl).
  destruct (Py.strip user_text) as [|c u] eqn:Eu; [contradiction|].
  destruct (Py.strip reference_sentence) as [|d r] eqn:Er; [contradiction|].
  cbn [Py.str_falsy orb]. eexists. split; [reflexivity|].
  rewrite <- Eu, <- Er.
  destruct (tokenize_and_clean_text word_tokenize_unavailable (Py.strip user_text))
    as [|t ts] eqn:Etu.
  { rewrite split_tokens_strip in Etu. apply split_tokens_nil_iff in Etu.
    rewrite Etu in Eu. discriminate. }
  destruct (tokenize_and_clean_text word_tokenize_unavailable (Py.strip reference_sentence))
    as [|first rest] eqn:Etr.
  { rewrite split_tokens_strip in Etr. apply split_tokens_nil_iff in Etr.
    rewrite Etr in Er. discriminate. }
  apply (score_in_range word_tokenize_unavailable G 3 (penalty_cap G)
           _ _ _ _ _ _ Etu Etr).
  intros x _. split; [|apply token_penalty_le_cap].
  apply token_penalty_unknown. rewrite Hvocab. apply not_elem_of_empty.
Qed.

Lemma degraded_server_scores_at_least_3_witness :
  exists score : Q,
    analyze_response word_tokenize_unavailable (boot ∅)
      {| userText := Some (JString " the cat "); sentence := Some (JString "The cat.") |}
    = {| status := 200; body := ScoreBody score true |}
    /\ (3 <= score)%Q.
Proof.
  apply (degraded_server_scores_at_least_3 (boot ∅) " the cat " "The cat.");
    [reflexivity | discriminate | discriminate].
Defined.

(** X20. A response in which NLTK finds no alphanumeric token (only
    punctuation, say) passes the validation of [analyze_response] when it
    is not blank, and is answered as valid with the score 0. *)
Theorem punctuation_only_response_scores_zero
    (word_tokenize : string -> option (list string)) (G : globals)
    (user_text reference_sentence : string) (words : list string) :
  Py.strip user_text <> "" ->
  Py.strip reference_sentence <> "" ->
  word_tokenize (Py.lower (Py.strip user_text)) = Some words ->
  Forall (fun w => Py.isalnum w = false) words ->
  analyze_response word_tokenize G
    {| userText := Some (JString user_text);
       sentence := Some (JString reference_sentence) |}
  = {| status := 200; body := ScoreBody 0 true |}.
Proof.
  intros Hu Hr Hw Hall.
  rewrite (analyze_response_texts word_tokenize G
             {| userText := Some (JString user_text);
                sentence := Some (JString reference_sentence) |}
             (Py.strip user_text) (Py.strip reference_sentence) eq_refl eq_refl).
  assert (Etok : tokenize_and_clean_text word_tokenize (Py.strip user_text) = []).
  { unfold tokenize_and_clean_text. rewrite Hw. clear Hw.
    induction Hall as [|w ws Hw0 _ IH]; [reflexivity|].
    cbn [List.filter]. now rewrite Hw0. }
  rewrite (score_guard word_tokenize G _ _ (or_introl Etok)).
  destruct (Py.strip user_text); [contradiction|].
  destruct (Py.strip reference_sentence); [contradiction|]. reflexivity.
Qed.

Lemma punctuation_only_response_scores_zero_witness :
  analyze_response (fun text => Some [text]) (boot ∅)
    {| userText := Some (JString " ?! "); sentence := Some (JString "The cat.") |}
  = {| status := 200; body := ScoreBody 0 true |}.
Proof.
  apply (punctuation_only_response_scores_zero (fun text => Some [text]) (boot ∅)
           " ?! " "The cat." ["?!"]);
    [discriminate | discriminate | reflexivity|].
  repeat constructor.
Defined.

Lemma str_contains_same_letters (c : ascii) (t t2 : string) :
  same_letters t t2 ->
  Py.str_contains (String c "") t = Py.str_contains (String c "") t2.
Proof.
  intros H. destruct (Py.str_contains (String c "") t) eqn:E1;
    destruct (Py.str_contains (String c "") t2) eqn:E2; try reflexivity.
  - apply str_contains_spec, occurs_char, H, occurs_char, str_contains_spec in E1.
    congruence.
  - apply str_contains_spec, occurs_char, H, occurs_char, str_contains_spec in E2.
    congruence.
Qed.

Lemma table_of_letters :
  Forall (fun p : string * string =>
            exists x y : ascii, p = (String x "", String y ""))
    DYSLEXIC_LETTER_CONFUSIONS.
Proof. repeat constructor; eexists; eexists; reflexivity. Qed.

Lemma same_letters_reversed (t : string) : same_letters t (Py.reversed t).
Proof.
  intros c. unfold Py.reversed. rewrite list_ascii_of_string_of_list_ascii.
  apply in_rev.
Qed.

(** X21. The letter-confusion check sees only which letters occur in a
    token, not where or how often: two tokens with the same letters, for
    instance a token and its reverse, hit the same letter pairs and leave
    the loop with the same penalty. *)
Theorem letter_check_sees_only_the_letters
    (vocab : gset string) (t t2 : string) (acc : Q) :
  same_letters t t2 ->
  pairs_hit DYSLEXIC_LETTER_CONFUSIONS t = pairs_hit DYSLEXIC_LETTER_CONFUSIONS t2
  /\ check_letters (boot vocab) t acc = check_letters (boot vocab) t2 acc
  /\ check_letters (boot vocab) (Py.reversed t) acc = check_letters (boot vocab) t acc.
Proof.
  assert (Hgen : forall u u2, same_letters u u2 ->
            pairs_hit DYSLEXIC_LETTER_CONFUSIONS u = pairs_hit DYSLEXIC_LETTER_CONFUSIONS u2
            /\ forall a, check_letters (boot vocab) u a = check_letters (boot vocab) u2 a).
  { intros u u2 H. unfold check_letters. cbn [boot letter_confusions].
    pose proof table_of_letters as Htab.
    induction Htab as [|p pairs (x & y & ->) _ [IH1 IH2]]; [split; reflexivity|].
    assert (Ex := str_contains_same_letters x u u2 H).
    assert (Ey := str_contains_same_letters y u u2 H).
    split.
    - unfold pairs_hit in *. rewrite !filter_cons, IH1.
      destruct (decide (pair_hit u (String x "", String y ""))) as [[H1 H2]|Hno];
        destruct (decide (pair_hit u2 (String x "", String y ""))) as [[H3 H4]|Hno2];
        try reflexivity; exfalso.
      + apply Hno2. unfold pair_hit. cbn [fst snd] in *.
        split; apply str_contains_spec; [rewrite <- Ex | rewrite <- Ey];
          now apply str_contains_spec.
      + apply Hno. unfold pair_hit. cbn [fst snd] in *.
        split; apply str_contains_spec; [rewrite Ex | rewrite Ey];
          now apply str_contains_spec.
    - intros a. cbn [fold_left]. unfold letter_step at 2 4. cbn [fst snd].
      rewrite Ex, Ey. apply IH2. }
  intros H. destruct (Hgen t t2 H) as [H1 H2].
  split; [exact H1|]. split; [apply H2|].
  symmetry. apply (Hgen t (Py.reversed t)), same_letters_reversed.
Qed.

Lemma letter_check_sees_only_the_letters_witness :
  pairs_hit DYSLEXIC_LETTER_CONFUSIONS "bad" = pairs_hit DYSLEXIC_LETTER_CONFUSIONS "dabba"
  /\ check_letters (boot ∅) "bad" 0%Q = check_letters (boot ∅) "dabba" 0%Q.
Proof.
  destruct (letter_check_sees_only_the_letters ∅ "bad" "dabba" 0%Q) as (H1 & H2 & _);
    [|split; [exact H1 | exact H2]].
  intros c. cbn. tauto.
Defined.

(** ** Scores of joined responses *)

(** X22. Joining two responses cannot push the score outside the scores
    of the parts: if the tokens of a response are those of a first
    response followed by those of a second one, its score lies between
    the scores of the two. *)
Theorem joined_response_score_between
    (word_tokenize : string -> option (list string)) (G : globals)
    (word1 word2 word12 reference_sentence : string) :
  tokenize_and_clean_text word_tokenize word12
  = (tokenize_and_clean_text word_tokenize word1
     ++ tokenize_and_clean_text word_tokenize word2)%list ->
  let s1 := calculate_word_dyslexia_score word_tokenize G word1 reference_sentence in
  let s2 := calculate_word_dyslexia_score word_tokenize G word2 reference_sentence in
  let s := calculate_word_dyslexia_score word_tokenize G word12 reference_sentence in
  ((s1 <= s)%Q /\ (s <= s2)%Q) \/ ((s2 <= s)%Q /\ (s <= s1)%Q).
Proof.
  intros Hjoin s1 s2 s.
  destruct (tokenize_and_clean_text word_tokenize reference_sentence)
    as [|first rest] eqn:Er.
  { subst s1 s2 s. rewrite !score_guard by now right. left. split; lra. }
  destruct (tokenize_and_clean_text word_tokenize word1) as [|t1 ts1] eqn:E1.
  { cbn [app] in Hjoin.
    assert (E : s = s2).
    { subst s s2. unfold calculate_word_dyslexia_score, calculate_word_dyslexia_score_try.
      now rewrite Hjoin. }
    assert (H1 : s1 = 0%Q) by (subst s1; apply score_guard; now left).
    pose proof (score_nonneg_helper word_tokenize G word2 reference_sentence) as H2.
    fold s2 in H2. rewrite E, H1. left. split; lra. }
  destruct (tokenize_and_clean_text word_tokenize word2) as [|t2 ts2] eqn:E2.
  { rewrite app_nil_r in Hjoin.
    assert (E : s = s1).
    { subst s s1. unfold calculate_word_dyslexia_score, calculate_word_dyslexia_score_try.
      now rewrite Hjoin, E1. }
    assert (H2 : s2 = 0%Q) by (subst s2; apply score_guard; left; exact E2).
    pose proof (score_nonneg_helper word_tokenize G word1 reference_sentence) as H1.
    fold s1 in H1. rewrite E, H2. right. split; lra. }
  cbn [app] in Hjoin.
  assert (Hs1 := score_mean _ G _ _ _ _ _ _ E1 Er). fold s1 in Hs1.
  assert (Hs2 := score_mean _ G _ _ _ _ _ _ E2 Er). fold s2 in Hs2.
  assert (Hs := score_mean _ G _ _ _ _ _ _ Hjoin Er). fold s in Hs.
  change (t1 :: ts1 ++ t2 :: ts2)%list with ((t1 :: ts1) ++ (t2 :: ts2))%list in Hs.
  rewrite map_app, length_app in Hs.
  set (S1 := Py.sum (map (token_penalty G first) (t1 :: ts1))) in *.
  set (S2 := Py.sum (map (token_penalty G first) (t2 :: ts2))) in *.
  set (n1 := of_count (length (t1 :: ts1))) in *.
  set (n2 := of_count (length (t2 :: ts2))) in *.
  assert (Hn1 : (0 < n1)%Q) by apply of_count_pos.
  assert (Hn2 : (0 < n2)%Q) by apply of_count_pos.
  assert (Q1 : (s1 * n1 == S1)%Q) by (rewrite Hs1; field; lra).
  assert (Q2 : (s2 * n2 == S2)%Q) by (rewrite Hs2; field; lra).
  assert (Q12 : (s * (n1 + n2) == S1 + S2)%Q).
  { rewrite Hs, sum_app, of_count_add. fold S1 S2 n1 n2. field. lra. }
  destruct (Qlt_le_dec s2 s1) as [Hlt | Hle].
  - right. split.
    + apply Qnot_lt_le. intros Hc. nra.
    + apply Qnot_lt_le. intros Hc. nra.
  - left. split.
    + apply Qnot_lt_le. intros Hc. nra.
    + apply Qnot_lt_le. intros Hc. nra.
Qed.

Lemma joined_response_score_between_witness :
  let s1 := calculate_word_dyslexia_score word_tokenize_unavailable (boot ∅)
              "teh" "The cat." in
  let s2 := calculate_word_dyslexia_score word_tokenize_unavailable (boot ∅)
              "cat sat" "The cat." in
  let s := calculate_word_dyslexia_score word_tokenize_unavailable (boot ∅)
             "teh cat sat" "The cat." in
  ((s1 <= s)%Q /\ (s <= s2)%Q) \/ ((s2 <= s)%Q /\ (s <= s1)%Q).
Proof.
  apply (joined_response_score_between word_tokenize_unavailable (boot ∅)
           "teh" "cat sat" "teh cat sat" "The cat."). reflexivity.
Defined.
